(** * lcd8574: an HD44780 character LCD behind a PCF8574 I2C expander

    A shallow embedding of [src/lcd8574.c].  The driver talks to the
    outside world through five calls only ([open], [ioctl], [write],
    [usleep], [close]); the model threads a machine state made of the
    [struct _LCD8574] object and the chronological log of those calls.
    Integers are [Z]; the C conversions to [BYTE] and the 32-bit [int]
    arithmetic are written out. *)

From Stdlib Require Import ZArith List Ascii String Bool Lia DecimalString.
Import ListNotations.
Local Open Scope Z_scope.

(* ===================================================================== *)
(** ** Machine integers *)

(** Modelled from the spec: [defs.h] is not among the sources.  [BYTE] is
    taken as the 8-bit unsigned type and [BOOL] as a truth value with the
    two constants [TRUE] and [FALSE]; every test of a [BOOL] in the driver
    is a test against zero. *)
Definition BYTE := Z.
Definition BOOL := bool.
Definition TRUE : BOOL := true.
Definition FALSE : BOOL := false.

(** Conversion of an [int] expression to [BYTE]: reduction modulo 256. *)
Definition to_BYTE (z : Z) : BYTE := z mod 256.

(** Value of a 32-bit two's complement [int] after wrap-around. *)
Definition to_int (z : Z) : Z := (z + 2147483648) mod 4294967296 - 2147483648.

Definition INT_MAX : Z := 2147483647.
Definition INT_MIN : Z := -2147483648.
Definition is_int (z : Z) : Prop := INT_MIN <= z <= INT_MAX.
Definition is_byte (z : Z) : Prop := 0 <= z < 256.

(* ===================================================================== *)
(** ** Constants of lcd8574.c and lcd8574.h *)

Definition PIN_RS : Z := 0.
Definition PIN_RW : Z := 1.
Definition PIN_E : Z := 2.
Definition PIN_LED : Z := 3.
Definition PIN_D4 : Z := 4.
Definition PIN_D5 : Z := 5.
Definition PIN_D6 : Z := 6.
Definition PIN_D7 : Z := 7.

Definition CMD_CLEAR : Z := 0x01.
Definition CMD_HOME : Z := 0x02.
Definition CMD_ENTRY : Z := 0x04.
Definition CMD_CTRL : Z := 0x08.
Definition CMD_CDSHIFT : Z := 0x10.
Definition CMD_FUNC : Z := 0x20.
Definition CMD_SET_DDRAM_ADDR : Z := 0x80.
Definition CMD_SET_CGRAM_ADDR : Z := 0x40.

Definition LCD_FUNC_F : Z := 0x04.
Definition LCD_FUNC_N : Z := 0x08.
Definition LCD_FUNC_DL : Z := 0x10.

Definition LCD_CHARS_PER_ROW : Z := 64.

Definition LCD_MODE_CURSOR_BLINK : Z := 0x01.
Definition LCD_MODE_CURSOR_ON : Z := 0x02.
Definition LCD_MODE_DISPLAY_ON : Z := 0x04.

Definition I2C_DEV : string := "/dev/i2c-1"%string.

(** From the Linux headers [fcntl.h] and [linux/i2c-dev.h]. *)
Definition O_WRONLY : Z := 1.
Definition I2C_SLAVE : Z := 0x0703.

(* ===================================================================== *)
(** ** The object, the log and the machine *)

Record LCD8574 : Type := mkLCD8574 {
  i2c_addr : Z;
  fd : Z;
  rows : Z;
  cols : Z;
  ready : BOOL
}.

(** What the driver does to its environment, in program order.  Besides
    the system calls the log keeps every store to [self->ready], so that
    the position of such a store among the calls can be stated. *)
Inductive Event : Type :=
| EvOpen (path : string) (flags : Z) (result : Z)
| EvIoctl (fildes : Z) (request : Z) (arg : Z) (result : Z)
| EvWrite (fildes : Z) (b : BYTE)
| EvUsleep (usec : Z)
| EvClose (fildes : Z)
| EvFree
| EvReady (v : BOOL).

Record Machine : Type := mkMachine {
  self : LCD8574;
  trace : list Event
}.

(** The answers of the operating system to one call of [lcd8574_init]:
    what [open] and [ioctl] return and the text [strerror (errno)] yields
    after the call that failed. *)
Record Env : Type := mkEnv {
  env_open : Z;
  env_ioctl : Z;
  env_strerror : string
}.

(* ===================================================================== *)
(** ** A state monad over the machine *)

Definition M (A : Type) : Type := Machine -> A * Machine.

Definition ret {A : Type} (a : A) : M A := fun m => (a, m).

Definition bind {A B : Type} (c : M A) (k : A -> M B) : M B :=
  fun m => let (a, m') := c m in k a m'.

Declare Scope lcd_scope.
Delimit Scope lcd_scope with lcd.
Notation "x <- c ;; k" := (bind c (fun x => k))
  (at level 61, c at next level, right associativity) : lcd_scope.
Notation "c ;; k" := (bind c (fun _ => k))
  (at level 61, right associativity) : lcd_scope.
Local Open Scope lcd_scope.

Definition exec {A : Type} (c : M A) (m : Machine) : Machine := snd (c m).
Definition eval {A : Type} (c : M A) (m : Machine) : A := fst (c m).

Definition log (e : Event) : M unit :=
  fun m => (tt, mkMachine (self m) (trace m ++ [e])).

Definition get_fd : M Z := fun m => (fd (self m), m).
Definition get_rows : M Z := fun m => (rows (self m), m).
Definition get_cols : M Z := fun m => (cols (self m), m).
Definition get_i2c_addr : M Z := fun m => (i2c_addr (self m), m).

Definition with_fd (v : Z) (o : LCD8574) : LCD8574 :=
  mkLCD8574 (i2c_addr o) v (rows o) (cols o) (ready o).
Definition with_ready (v : BOOL) (o : LCD8574) : LCD8574 :=
  mkLCD8574 (i2c_addr o) (fd o) (rows o) (cols o) v.

Definition set_fd (v : Z) : M unit :=
  fun m => (tt, mkMachine (with_fd v (self m)) (trace m)).
Definition set_ready (v : BOOL) : M unit :=
  fun m => (tt, mkMachine (with_ready v (self m)) (trace m ++ [EvReady v])).

(** The system calls.  [write], [usleep] and [close] are called for their
    effect only: the driver never looks at what they return. *)
Definition sys_open (e : Env) (path : string) (flags : Z) : M Z :=
  log (EvOpen path flags (env_open e)) ;; ret (env_open e).
Definition sys_ioctl (e : Env) (fildes request arg : Z) : M Z :=
  log (EvIoctl fildes request arg (env_ioctl e)) ;; ret (env_ioctl e).
Definition sys_write (fildes : Z) (b : BYTE) : M unit := log (EvWrite fildes b).
Definition usleep (usec : Z) : M unit := log (EvUsleep usec).
Definition sys_close (fildes : Z) : M unit := log (EvClose fildes).
Definition sys_free : M unit := log EvFree.

(* ===================================================================== *)
(** ** The driver *)

(** [lcd8574_create]: pure construction, no call is made. *)
Definition lcd8574_create (addr r c : Z) : LCD8574 :=
  mkLCD8574 addr (-1) r c FALSE.

Definition boot (addr r c : Z) : Machine :=
  mkMachine (lcd8574_create addr r c) [].

Definition lcd8574_set_bit_value (b : BYTE) (bit : Z) (val : BOOL) : BYTE :=
  if val
  then to_BYTE (Z.lor b (Z.shiftl 1 bit))
  else to_BYTE (Z.land b (Z.lnot (Z.shiftl 1 bit))).

Definition lcd8574_send_4_bits (rs : BOOL) (n : BYTE) : M unit :=
  let b := to_BYTE (Z.land (Z.shiftl n 4) 0xF0) in
  let b := if 0 <? PIN_LED then lcd8574_set_bit_value b PIN_LED TRUE else b in
  let b := lcd8574_set_bit_value b PIN_RS rs in
  let b := lcd8574_set_bit_value b PIN_E TRUE in
  f <- get_fd ;; sys_write f b ;;
  usleep 1000 ;;
  let b := lcd8574_set_bit_value b PIN_E FALSE in
  f <- get_fd ;; sys_write f b ;;
  usleep 1000.

Definition lcd8574_send_byte (rs : BOOL) (n : BYTE) : M unit :=
  lcd8574_send_4_bits rs (to_BYTE (Z.land (Z.shiftr n 4) 0x0F)) ;;
  lcd8574_send_4_bits rs (to_BYTE (Z.land n 0x0F)).

(** [row * LCD_CHARS_PER_ROW + col] in [int] arithmetic. *)
Definition ddram_addr (row col : Z) : Z :=
  to_int (to_int (row * LCD_CHARS_PER_ROW) + col).

Definition lcd8574_write_char_at (row col : Z) (c : BYTE) : M unit :=
  r <- get_rows ;; k <- get_cols ;;
  if (row <? r) && (col <? k) then
    let addr := ddram_addr row col in
    lcd8574_send_byte FALSE (to_BYTE (Z.lor CMD_SET_DDRAM_ADDR addr)) ;;
    lcd8574_send_byte TRUE c
  else ret tt.

(** The [while] loop of [lcd8574_write_string_at].  The string is the
    list of bytes found from [s] on; the end of the list stands for the
    terminating NUL, and a zero byte inside the list stops the loop just
    the same. *)
Fixpoint write_string_loop (row col : Z) (s : list BYTE) (wrap : BOOL)
  : M unit :=
  match s with
  | [] => ret tt
  | c :: s' =>
    r <- get_rows ;; k <- get_cols ;;
    if negb (c =? 0) && (row <? r) && (col <? k) then
      lcd8574_send_byte TRUE c ;;
      let col := to_int (col + 1) in
      if (k <=? col) && wrap then
        let row := to_int (row + 1) in
        let col := 0 in
        let addr := ddram_addr row col in
        lcd8574_send_byte FALSE (to_BYTE (Z.lor CMD_SET_DDRAM_ADDR addr)) ;;
        write_string_loop row col s' wrap
      else write_string_loop row col s' wrap
    else ret tt
  end.

Definition lcd8574_write_string_at (row col : Z) (s : list BYTE) (wrap : BOOL)
  : M unit :=
  r <- get_rows ;; k <- get_cols ;;
  if (row <? r) && (col <? k) then
    let addr := ddram_addr row col in
    lcd8574_send_byte FALSE (to_BYTE (Z.lor CMD_SET_DDRAM_ADDR addr)) ;;
    write_string_loop row col s wrap
  else ret tt.

Definition lcd8574_clear : M unit :=
  lcd8574_send_byte FALSE CMD_CLEAR.

(** The literal ["\0"]: the written NUL and the one the compiler adds. *)
Definition nul_literal : list BYTE := [0; 0].

Definition lcd8574_set_cursor (row col : Z) : M unit :=
  lcd8574_write_string_at row col nul_literal TRUE.

Definition lcd8574_set_mode (mode : BYTE) : M unit :=
  lcd8574_send_byte FALSE (to_BYTE (Z.lor CMD_CTRL mode)).

(** [lcd8574_init] returns its [BOOL] result together with what it stored
    through [error] ([None] when it stored nothing). *)
Definition lcd8574_init (e : Env) : M (BOOL * option string) :=
  f <- sys_open e I2C_DEV O_WRONLY ;;
  set_fd f ;;
  f <- get_fd ;;
  if 0 <=? f then
    a <- get_i2c_addr ;;
    f <- get_fd ;;
    io <- sys_ioctl e f I2C_SLAVE a ;;
    if 0 <=? io then
      let c := 0 in
      f <- get_fd ;; sys_write f c ;;
      usleep 35000 ;;
      let func := to_BYTE (Z.lor CMD_FUNC LCD_FUNC_DL) in
      lcd8574_send_4_bits FALSE (to_BYTE (Z.shiftr func 4)) ;; usleep 35000 ;;
      lcd8574_send_4_bits FALSE (to_BYTE (Z.shiftr func 4)) ;; usleep 35000 ;;
      lcd8574_send_4_bits FALSE (to_BYTE (Z.shiftr func 4)) ;; usleep 35000 ;;
      let func := to_BYTE (Z.lor CMD_FUNC 0) in
      lcd8574_send_4_bits FALSE (to_BYTE (Z.shiftr func 4)) ;; usleep 35000 ;;
      let func := to_BYTE (Z.lor CMD_FUNC LCD_FUNC_N) in
      lcd8574_send_byte FALSE func ;;
      lcd8574_clear ;;
      lcd8574_set_mode LCD_MODE_DISPLAY_ON ;;
      set_ready TRUE ;;
      ret (TRUE, None)
    else
      ret (FALSE,
           Some ("Can't intialize I2C device: " ++ env_strerror e)%string)
  else
    ret (FALSE, Some ("Can't open I2C device: " ++ env_strerror e)%string).

Definition lcd8574_uninit : M unit :=
  f <- get_fd ;;
  (if 0 <=? f then sys_close f else ret tt) ;;
  set_ready FALSE.

Definition lcd8574_destroy : M unit :=
  lcd8574_uninit ;; sys_free.

(* ===================================================================== *)
(** ** What one transaction appends to the log *)

(** [emit l m]: the machine [m] after the events [l] were logged. *)
Definition emit (l : list Event) (m : Machine) : Machine :=
  mkMachine (self m) (trace m ++ l).

(** The byte put on the expander outputs by [lcd8574_send_4_bits] while
    the clock line is at level [e]. *)
Definition line_byte (rs : BOOL) (n : BYTE) (e : BOOL) : BYTE :=
  let b := to_BYTE (Z.land (Z.shiftl n 4) 0xF0) in
  let b := if 0 <? PIN_LED then lcd8574_set_bit_value b PIN_LED TRUE else b in
  let b := lcd8574_set_bit_value b PIN_RS rs in
  let b := lcd8574_set_bit_value b PIN_E TRUE in
  if e then b else lcd8574_set_bit_value b PIN_E FALSE.

(** Events of one nibble transaction and of one byte on descriptor [f]. *)
Definition strobe (f : Z) (rs : BOOL) (n : BYTE) : list Event :=
  [EvWrite f (line_byte rs n true); EvUsleep 1000;
   EvWrite f (line_byte rs n false); EvUsleep 1000].

Definition octet (f : Z) (rs : BOOL) (n : BYTE) : list Event :=
  strobe f rs (to_BYTE (Z.land (Z.shiftr n 4) 0x0F))
  ++ strobe f rs (to_BYTE (Z.land n 0x0F)).

(** The "set DDRAM address" command for [row], [col] as the driver sends it. *)
Definition set_addr (f : Z) (row col : Z) : list Event :=
  octet f FALSE (to_BYTE (Z.lor CMD_SET_DDRAM_ADDR (ddram_addr row col))).

(** The data bytes of a run of characters. *)
Definition chars (f : Z) (s : list BYTE) : list Event :=
  flat_map (octet f TRUE) s.

(** Eight output lines packed into a byte, line 7 first. *)
Definition bit (b : bool) : Z := if b then 1 else 0.
Definition pack8 (p7 p6 p5 p4 p3 p2 p1 p0 : bool) : Z :=
  128 * bit p7 + 64 * bit p6 + 32 * bit p5 + 16 * bit p4
  + 8 * bit p3 + 4 * bit p2 + 2 * bit p1 + bit p0.

(** The layout the pin constants give: [D7 D6 D5 D4 | LED | E | RW | RS]. *)
Definition wired_byte (rs : BOOL) (n : BYTE) (e : bool) : BYTE :=
  pack8 (Z.testbit n 3) (Z.testbit n 2) (Z.testbit n 1) (Z.testbit n 0)
        true e false rs.

(** The layout in the words of the specification:
    [D7 D6 D5 D4 | LED | RS | RW | E]. *)
Definition spec_byte (rs : BOOL) (n : BYTE) (e : bool) : BYTE :=
  pack8 (Z.testbit n 3) (Z.testbit n 2) (Z.testbit n 1) (Z.testbit n 0)
        true rs false e.

(** Number of [write] calls in a log. *)
Definition is_write (e : Event) : bool :=
  match e with EvWrite _ _ => true | _ => false end.
Definition count_writes (l : list Event) : nat :=
  List.length (filter is_write l).

(** The bytes handed to [write], in order. *)
Definition written (l : list Event) : list BYTE :=
  flat_map (fun e => match e with EvWrite _ b => [b] | _ => [] end) l.

(** Number of [close] calls on descriptor [f] in a log. *)
Definition is_close (f : Z) (e : Event) : bool :=
  match e with EvClose g => g =? f | _ => false end.
Definition count_close (f : Z) (l : list Event) : nat :=
  List.length (filter (is_close f) l).

(** A run of characters none of which is the terminator. *)
Definition no_nul (s : list BYTE) : Prop := Forall (fun c => c <> 0) s.

(** A computation that leaves the object alone and only adds to the log. *)
Definition appends (c : M unit) : Prop :=
  forall m, exists l, c m = (tt, emit l m).

(** A C string given as a literal: its characters as bytes. *)
Definition bytes_of_string (s : string) : list BYTE :=
  map (fun a => Z.of_N (Ascii.N_of_ascii a)) (list_ascii_of_string s).

(** *** Histories of calls on one object *)

Inductive Call : Type :=
| CallInit (e : Env)
| CallUninit
| CallDestroy
| CallWriteCharAt (row col : Z) (c : BYTE)
| CallWriteStringAt (row col : Z) (s : list BYTE) (wrap : BOOL)
| CallClear
| CallSetMode (mode : BYTE)
| CallSetCursor (row col : Z).

Definition call (c : Call) : M unit :=
  match c with
  | CallInit e => lcd8574_init e ;; ret tt
  | CallUninit => lcd8574_uninit
  | CallDestroy => lcd8574_destroy
  | CallWriteCharAt row col b => lcd8574_write_char_at row col b
  | CallWriteStringAt row col s wrap => lcd8574_write_string_at row col s wrap
  | CallClear => lcd8574_clear
  | CallSetMode mode => lcd8574_set_mode mode
  | CallSetCursor row col => lcd8574_set_cursor row col
  end.

Fixpoint run (cs : list Call) : M unit :=
  match cs with
  | [] => ret tt
  | c :: cs' => call c ;; run cs'
  end.

(** The life cycle of the header file: [lcd8574_init] is called on an
    object that is not ready, and nothing follows [lcd8574_destroy]. *)
Fixpoint lifecycle (m : Machine) (cs : list Call) : bool :=
  match cs with
  | [] => true
  | c :: cs' =>
    match c with
    | CallInit _ => negb (ready (self m))
    | CallDestroy => match cs' with [] => true | _ :: _ => false end
    | _ => true
    end && lifecycle (exec (call c) m) cs'
  end.

(** [lcd8574_init] gets a descriptor from [open] and is refused by [ioctl]. *)
Definition bind_fails (e : Env) : bool :=
  (0 <=? env_open e) && negb (0 <=? env_ioctl e).

(** Calls after which the descriptor and the flag still agree: no
    teardown, and no [lcd8574_init] refused at the slave address. *)
Definition quiet (c : Call) : bool :=
  match c with
  | CallInit e => negb (bind_fails e)
  | CallUninit | CallDestroy => false
  | _ => true
  end.

(* ===================================================================== *)
(** ** Measures and shapes of a log *)

(** Time asked of [usleep], in microseconds. *)
Definition total_usleep (l : list Event) : Z :=
  fold_right (fun e acc => match e with EvUsleep u => u + acc | _ => acc end)
             0 l.

(** A sequence of command ([FALSE]) and data ([TRUE]) bytes as it goes out
    on descriptor [f]. *)
Definition byte_stream (f : Z) (bs : list (BOOL * BYTE)) : list Event :=
  flat_map (fun p => octet f (fst p) (snd p)) bs.

(** A computation that leaves the object alone and sends whole bytes to
    the descriptor of the object, nothing else. *)
Definition streams (c : M unit) : Prop :=
  forall m, exists bs, c m = (tt, emit (byte_stream (fd (self m)) bs) m).

(** The calls that write to the display. *)
Definition is_write_call (c : Call) : bool :=
  match c with
  | CallInit _ | CallUninit | CallDestroy => false
  | _ => true
  end.

(** What a write operation may log: a write to descriptor [f] of a byte
    with the backlight line set and the RW line clear, or a delay of one
    millisecond. *)
Definition on_wire (f : Z) (e : Event) : bool :=
  match e with
  | EvWrite g b => (g =? f) && Z.testbit b 3 && negb (Z.testbit b 1)
  | EvUsleep u => u =? 1000
  | _ => false
  end.

(** Full rows written one after the other with [wrap] set, the first of
    them on [row]: each row is followed by the address of the next. *)
Fixpoint wrapped (f : Z) (row : Z) (chunks : list (list BYTE)) : list Event :=
  match chunks with
  | [] => []
  | ch :: rest =>
    chars f ch ++ set_addr f (row + 1) 0 ++ wrapped f (row + 1) rest
  end.

(* ===================================================================== *)
(** ** gpiopin.c: one GPIO pin through sysfs *)

Record GPIOPin : Type := mkGPIOPin {
  pin : Z;
  value_fd : Z
}.

(** The calls of gpiopin.c, in program order. *)
Inductive FsEvent : Type :=
| FsFopen (filename : string) (ok : bool)
| FsFprintf (text : string)
| FsFclose
| FsOpen (path : string) (flags : Z) (result : Z)
| FsClose (fildes : Z)
| FsWrite (fildes : Z) (c : Z)
| FsFree.

Record PinMachine : Type := mkPinMachine {
  pin_self : GPIOPin;
  pin_trace : list FsEvent
}.

(** The answers of the file system during one call: whether [fopen] for
    writing succeeds on a file, what [open] returns for a path, and the
    text of [strerror (errno)] after a failure. *)
Record Sysfs : Type := mkSysfs {
  can_fopen : string -> bool;
  open_ret : string -> Z;
  sysfs_strerror : string
}.

(** [snprintf (s, sizeof (s), ...)] into [char s[50]]: at most 49
    characters are kept. *)
Definition snprintf50 (s : string) : string := substring 0 49 s.

(** The conversion [%d]. *)
Definition fmt_d (z : Z) : string := NilZero.string_of_int (Z.to_int z).

Definition gpiopin_create (p : Z) : GPIOPin := mkGPIOPin p (-1).

(** [gpiopin_write_to_file] touches the log only.  [error] tells whether
    the pointer given is not NULL; the result carries what was stored
    through it.  The texts printed by the callers hold no conversion, so
    [fprintf (f, text)] prints [text]. *)
Definition gpiopin_write_to_file
  (fs : Sysfs) (filename text : string) (error : bool) (t : list FsEvent)
  : (BOOL * option string) * list FsEvent :=
  if can_fopen fs filename then
    ((TRUE, None), t ++ [FsFopen filename true; FsFprintf text; FsFclose])
  else
    ((FALSE,
      if error
      then Some ("Can't open " ++ filename ++ " for writing: "
                 ++ sysfs_strerror fs)%string
      else None),
     t ++ [FsFopen filename false]).

Definition gpiopin_init (fs : Sysfs) (error : bool) (m : PinMachine)
  : (BOOL * option string) * PinMachine :=
  let p := pin (pin_self m) in
  let s := snprintf50 (fmt_d p) in
  let '((ret, msg), t1) :=
    gpiopin_write_to_file fs "/sys/class/gpio/export" s error (pin_trace m) in
  if ret then
    let s := snprintf50 ("/sys/class/gpio/gpio" ++ fmt_d p ++ "/direction") in
    let '(_, t2) := gpiopin_write_to_file fs s "out" false t1 in
    let s := snprintf50 ("/sys/class/gpio/gpio" ++ fmt_d p ++ "/value") in
    let v := open_ret fs s in
    let m' := mkPinMachine (mkGPIOPin p v) (t2 ++ [FsOpen s O_WRONLY v]) in
    if 0 <=? v then ((TRUE, msg), m')
    else
      ((FALSE,
        if error
        then Some ("Can't open " ++ s ++ " for writing: "
                   ++ sysfs_strerror fs)%string
        else msg),
       m')
  else ((ret, msg), mkPinMachine (pin_self m) t1).

Definition gpiopin_uninit (fs : Sysfs) (m : PinMachine) : PinMachine :=
  let p := pin (pin_self m) in
  let t1 := if 0 <=? value_fd (pin_self m)
            then pin_trace m ++ [FsClose (value_fd (pin_self m))]
            else pin_trace m in
  let s := snprintf50 (fmt_d p) in
  let '(_, t2) :=
    gpiopin_write_to_file fs "/sys/class/gpio/unexport" s false t1 in
  mkPinMachine (mkGPIOPin p (-1)) t2.

Definition gpiopin_destroy (fs : Sysfs) (m : PinMachine) : PinMachine :=
  let m1 := gpiopin_uninit fs m in
  mkPinMachine (pin_self m1) (pin_trace m1 ++ [FsFree]).

(** [gpiopin_set] starts with [assert (self->value_fd >= 0)]: [None] is
    the program aborted by the assertion. *)
Definition gpiopin_set (val : BOOL) (m : PinMachine) : option PinMachine :=
  if 0 <=? value_fd (pin_self m) then
    let c := if val then Z.of_N (Ascii.N_of_ascii "1"%char)
             else Z.of_N (Ascii.N_of_ascii "0"%char) in
    Some (mkPinMachine (pin_self m)
                       (pin_trace m ++ [FsWrite (value_fd (pin_self m)) c]))
  else None.

(** Number of [close] calls in a log. *)
Definition is_fs_close (e : FsEvent) : bool :=
  match e with FsClose _ => true | _ => false end.
Definition count_fs_close (l : list FsEvent) : nat :=
  List.length (filter is_fs_close l).

(* ===================================================================== *)
(** ** main.c: the clock *)

Definition I2C_ADDR : Z := 0x27.
Definition ROWS : Z := 2.
Definition COLS : Z := 16.

(** The fields of [struct tm] that [main] reads. *)
Record tm : Type := mkTm {
  tm_sec : Z;
  tm_min : Z;
  tm_hour : Z;
  tm_mday : Z;
  tm_mon : Z;
  tm_year : Z
}.

Fixpoint zeros (n : nat) : string :=
  match n with
  | O => EmptyString
  | S k => String "0" (zeros k)
  end.

Definition zero_pad (w : nat) (s : string) : string :=
  (zeros (w - String.length s) ++ s)%string.

(** The conversion [%0wd]: the sign first, then zeros up to the width. *)
Definition fmt_0d (w : nat) (z : Z) : string :=
  if z <? 0
  then ("-" ++ zero_pad (w - 1) (fmt_d (- z)))%string
  else zero_pad w (fmt_d z).

(** [sprintf (s, "%02d:%02d:%02d", tm_hour, tm_min, tm_sec)]. *)
Definition time_text (t : tm) : string :=
  (fmt_0d 2 (tm_hour t) ++ ":" ++ fmt_0d 2 (tm_min t) ++ ":"
   ++ fmt_0d 2 (tm_sec t))%string.

(** [sprintf (s, "%04d/%02d/%02d", tm_year + 1900, tm_mon + 1, tm_mday)]. *)
Definition date_text (t : tm) : string :=
  (fmt_0d 4 (to_int (tm_year t + 1900)) ++ "/"
   ++ fmt_0d 2 (to_int (tm_mon t + 1)) ++ "/" ++ fmt_0d 2 (tm_mday t))%string.

(** One turn of the loop of [main], for the time [localtime] gave. *)
Definition main_refresh (t : tm) : M unit :=
  lcd8574_write_string_at 0 0 (bytes_of_string (time_text t)) FALSE ;;
  lcd8574_write_string_at 1 0 (bytes_of_string (date_text t)) FALSE ;;
  usleep 1000000.

(** The first turns of the loop, one for each time in the list. *)
Fixpoint main_loop (ts : list tm) : M unit :=
  match ts with
  | [] => ret tt
  | t :: ts' => main_refresh t ;; main_loop ts'
  end.

(** [main] up to the loop: [Some] text is what goes to [stderr] when the
    initialisation fails, and then the loop is not entered. *)
Definition main_setup (argv0 : string) (e : Env) : M (option string) :=
  r <- lcd8574_init e ;;
  if fst r then lcd8574_clear ;; ret None
  else
    ret (Some (argv0 ++ ": "
               ++ match snd r with Some msg => msg | None => "" end
               ++ String (ascii_of_nat 10) EmptyString)%string).

(** A broken-down time as [localtime] gives it, up to the year 9999. *)
Definition valid_tm (t : tm) : bool :=
  (0 <=? tm_hour t) && (tm_hour t <? 24)
  && (0 <=? tm_min t) && (tm_min t <? 60)
  && (0 <=? tm_sec t) && (tm_sec t <? 61)
  && (1 <=? tm_mday t) && (tm_mday t <? 32)
  && (0 <=? tm_mon t) && (tm_mon t <? 12)
  && (-1900 <=? tm_year t) && (tm_year t <? 8100).

(** A text of [w] characters none of which is NUL. *)
Definition plain_text (w : nat) (s : string) : bool :=
  (String.length s =? w)%nat
  && forallb (fun c => negb (c =? 0)) (bytes_of_string s).

(* ===================================================================== *)
(** ** Arithmetic of the conversions *)

Lemma to_int_id z : is_int z -> to_int z = z.
Proof.
  unfold is_int, INT_MIN, INT_MAX, to_int. intros H.
  rewrite Z.mod_small by lia. lia.
Qed.

Lemma to_int_mod256 z : to_int z mod 256 = z mod 256.
Proof.
  unfold to_int.
  pose proof (Z.div_mod (z + 2147483648) 4294967296 ltac:(lia)) as E.
  replace ((z + 2147483648) mod 4294967296 - 2147483648)
    with (z + (- (16777216 * ((z + 2147483648) / 4294967296))) * 256) by lia.
  apply Z.mod_add. lia.
Qed.

Lemma lor_mod256 a x : Z.lor a x mod 256 = Z.lor (a mod 256) (x mod 256).
Proof.
  change 256 with (2 ^ 8). apply Z.bits_inj'. intros i Hi.
  rewrite Z.lor_spec.
  destruct (Z.ltb_spec i 8).
  - rewrite !Z.mod_pow2_bits_low by lia. now rewrite Z.lor_spec.
  - rewrite !Z.mod_pow2_bits_high by lia. reflexivity.
Qed.

(** The command byte only depends on the address modulo 256, so the
    wrap-around of the [int] computation never shows in it. *)
Lemma set_addr_byte row col :
  to_BYTE (Z.lor CMD_SET_DDRAM_ADDR (ddram_addr row col))
  = Z.lor 128 ((row * 64 + col) mod 256).
Proof.
  unfold to_BYTE, ddram_addr, CMD_SET_DDRAM_ADDR, LCD_CHARS_PER_ROW.
  rewrite lor_mod256, to_int_mod256.
  rewrite <- Z.add_mod_idemp_l, to_int_mod256, Z.add_mod_idemp_l by lia.
  reflexivity.
Qed.

Lemma nibble_field n : Z.land (Z.shiftl n 4) 240 = 16 * (n mod 16).
Proof.
  replace (16 * (n mod 16)) with (Z.shiftl (n mod 2 ^ 4) 4)
    by (rewrite Z.shiftl_mul_pow2 by lia; change (2 ^ 4) with 16; lia).
  apply Z.bits_inj'. intros i Hi.
  rewrite Z.land_spec.
  destruct (Z.ltb_spec i 4).
  - rewrite !Z.shiftl_spec_low by lia. reflexivity.
  - rewrite !Z.shiftl_spec by lia.
    destruct (Z.ltb_spec i 8).
    + rewrite Z.mod_pow2_bits_low by lia.
      assert (Hc : i = 4 \/ i = 5 \/ i = 6 \/ i = 7) by lia.
      destruct Hc as [-> | [-> | [-> | ->]]]; simpl; apply andb_true_r.
    + rewrite Z.mod_pow2_bits_high by lia.
      replace (Z.testbit 240 i) with false; [apply andb_false_r|].
      symmetry. apply Z.bits_above_log2; [lia|].
      change (Z.log2 240) with 7. lia.
Qed.

Lemma low_bits n j : 0 <= j < 4 -> Z.testbit n j = Z.testbit (n mod 16) j.
Proof.
  intros H. change 16 with (2 ^ 4).
  now rewrite Z.mod_pow2_bits_low by lia.
Qed.

(** The byte the code builds is the wired layout, for every nibble. *)
Lemma line_byte_wired rs n e : line_byte rs n e = wired_byte rs n e.
Proof.
  unfold line_byte, wired_byte.
  rewrite (low_bits n 0), (low_bits n 1), (low_bits n 2), (low_bits n 3)
    by lia.
  change 0xF0 with 240. rewrite nibble_field.
  pose proof (Z.mod_pos_bound n 16 ltac:(lia)) as Hk.
  generalize dependent (n mod 16). intros k Hk.
  assert (Hc : k = 0 \/ k = 1 \/ k = 2 \/ k = 3 \/ k = 4 \/ k = 5 \/ k = 6
               \/ k = 7 \/ k = 8 \/ k = 9 \/ k = 10 \/ k = 11 \/ k = 12
               \/ k = 13 \/ k = 14 \/ k = 15) by lia.
  repeat (destruct Hc as [-> | Hc]); try subst k;
    destruct rs, e; reflexivity.
Qed.

(* ===================================================================== *)
(** ** Running the transactions *)

Lemma emit_emit l1 l2 m : emit l2 (emit l1 m) = emit (l1 ++ l2) m.
Proof. unfold emit. simpl. now rewrite app_assoc. Qed.

Lemma emit_nil m : emit [] m = m.
Proof. destruct m. unfold emit. simpl. now rewrite app_nil_r. Qed.

Lemma self_emit l m : self (emit l m) = self m.
Proof. reflexivity. Qed.

Lemma trace_emit l m : trace (emit l m) = trace m ++ l.
Proof. reflexivity. Qed.

Lemma send_4_bits_run rs n m :
  lcd8574_send_4_bits rs n m = (tt, emit (strobe (fd (self m)) rs n) m).
Proof.
  unfold lcd8574_send_4_bits, strobe, line_byte, emit, bind, get_fd,
    sys_write, usleep, log, ret.
  cbn [self trace fst snd]. rewrite <- !app_assoc. reflexivity.
Qed.

Lemma send_byte_run rs n m :
  lcd8574_send_byte rs n m = (tt, emit (octet (fd (self m)) rs n) m).
Proof.
  unfold lcd8574_send_byte, bind, octet.
  rewrite send_4_bits_run, send_4_bits_run, emit_emit. reflexivity.
Qed.

(** *** The loop of [lcd8574_write_string_at] *)

Lemma write_string_loop_off row col s wrap m :
  rows (self m) <= row \/ cols (self m) <= col ->
  write_string_loop row col s wrap m = (tt, m).
Proof.
  intros H. destruct s as [|c s]; [reflexivity|].
  cbn [write_string_loop]. unfold bind, get_rows, get_cols.
  replace (negb (c =? 0) && (row <? rows (self m)) && (col <? cols (self m)))
    with false; [reflexivity|].
  symmetry. rewrite !andb_false_iff, !Z.ltb_ge. tauto.
Qed.

(** Characters that stay inside the current row: data bytes only. *)
Lemma write_string_loop_row s : forall rest row col wrap m,
  no_nul s ->
  is_int (cols (self m)) ->
  row < rows (self m) ->
  0 <= col ->
  col + Z.of_nat (List.length s) <= cols (self m) ->
  wrap = FALSE \/ col + Z.of_nat (List.length s) < cols (self m) ->
  write_string_loop row col (s ++ rest) wrap m
  = write_string_loop row (col + Z.of_nat (List.length s)) rest wrap
      (emit (chars (fd (self m)) s) m).
Proof.
  induction s as [|c s IH]; intros rest row col wrap m Hs Hk Hr Hc Hfit Hw.
  - cbn [List.length app chars flat_map]. now rewrite Z.add_0_r, emit_nil.
  - inversion Hs as [|? ? Hc0 Hs']; subst.
    cbn [List.length] in Hfit, Hw. rewrite Nat2Z.inj_succ in Hfit, Hw.
    cbn [app write_string_loop]. unfold bind at 1 2, get_rows, get_cols.
    replace (c =? 0) with false by (symmetry; now apply Z.eqb_neq).
    replace (row <? rows (self m)) with true by (symmetry; now apply Z.ltb_lt).
    replace (col <? cols (self m)) with true by (symmetry; apply Z.ltb_lt; lia).
    cbn [negb andb]. unfold bind at 1. rewrite send_byte_run.
    rewrite to_int_id by (unfold is_int, INT_MIN, INT_MAX in *; lia).
    replace ((cols (self m) <=? col + 1) && wrap) with false.
    + assert (Hw' : wrap = FALSE
                    \/ col + 1 + Z.of_nat (List.length s) < cols (self m))
        by (destruct Hw; [now left | right; lia]).
      rewrite IH; try assumption; rewrite ?self_emit; try lia.
      rewrite emit_emit. cbn [List.length chars flat_map].
      rewrite Nat2Z.inj_succ. f_equal. lia.
    + symmetry. destruct Hw as [-> | Hw]; [apply andb_false_r|].
      apply andb_false_iff. left. apply Z.leb_gt. lia.
Qed.

(** The character that fills the last cell of a row, with [wrap] set:
    its data byte, then at once the address of the next row. *)
Lemma write_string_loop_wrap c rest row col m :
  c <> 0 ->
  is_int (rows (self m)) -> is_int (cols (self m)) -> is_int row ->
  row < rows (self m) ->
  0 <= col ->
  col + 1 = cols (self m) ->
  write_string_loop row col (c :: rest) TRUE m
  = write_string_loop (row + 1) 0 rest TRUE
      (emit (octet (fd (self m)) TRUE c ++ set_addr (fd (self m)) (row + 1) 0)
            m).
Proof.
  intros Hc0 Hr Hk Hi Hrow Hcol Hlast.
  cbn [write_string_loop]. unfold bind at 1 2, get_rows, get_cols.
  replace (c =? 0) with false by (symmetry; now apply Z.eqb_neq).
  replace (row <? rows (self m)) with true by (symmetry; now apply Z.ltb_lt).
  replace (col <? cols (self m)) with true by (symmetry; apply Z.ltb_lt; lia).
  cbn [negb andb]. unfold bind at 1. rewrite send_byte_run.
  rewrite !to_int_id by (unfold is_int, INT_MIN, INT_MAX in *; lia).
  replace (cols (self m) <=? col + 1) with true
    by (symmetry; apply Z.leb_le; lia).
  cbn [andb TRUE]. unfold bind at 1. rewrite send_byte_run.
  rewrite emit_emit, self_emit. reflexivity.
Qed.

(** A run of characters that ends exactly at the end of a row. *)
Lemma write_string_loop_fill s rest row col m :
  no_nul s -> s <> [] ->
  is_int (rows (self m)) -> is_int (cols (self m)) -> is_int row ->
  row < rows (self m) ->
  0 <= col ->
  col + Z.of_nat (List.length s) = cols (self m) ->
  write_string_loop row col (s ++ rest) TRUE m
  = write_string_loop (row + 1) 0 rest TRUE
      (emit (chars (fd (self m)) s ++ set_addr (fd (self m)) (row + 1) 0) m).
Proof.
  intros Hs Hne Hr Hk Hi Hrow Hcol Hlen.
  destruct (exists_last Hne) as [s' [c ->]].
  apply Forall_app in Hs. destruct Hs as [Hs' Hc].
  inversion Hc as [|? ? Hc0 _]; subst.
  rewrite length_app in Hlen. cbn [List.length] in Hlen.
  rewrite Nat2Z.inj_add in Hlen. change (Z.of_nat 1) with 1 in Hlen.
  rewrite <- app_assoc. cbn [app].
  rewrite write_string_loop_row; try assumption; try lia.
  rewrite write_string_loop_wrap;
    rewrite ?self_emit; try assumption; try lia.
  rewrite emit_emit. unfold chars. rewrite flat_map_app.
  cbn [flat_map]. rewrite app_nil_r, <- !app_assoc. reflexivity.
Qed.

Lemma write_string_at_run row col s wrap m :
  row < rows (self m) -> col < cols (self m) ->
  lcd8574_write_string_at row col s wrap m
  = write_string_loop row col s wrap (emit (set_addr (fd (self m)) row col) m).
Proof.
  intros Hr Hc. unfold lcd8574_write_string_at, bind at 1 2, get_rows, get_cols.
  replace (row <? rows (self m)) with true by (symmetry; now apply Z.ltb_lt).
  replace (col <? cols (self m)) with true by (symmetry; now apply Z.ltb_lt).
  cbn [andb]. unfold bind. rewrite send_byte_run. reflexivity.
Qed.

(** *** Frame: the transactions only append to the log *)

Lemma appends_ret : appends (ret tt).
Proof. intros m. exists []. now rewrite emit_nil. Qed.

Lemma appends_bind c k : appends c -> appends k -> appends (c ;; k).
Proof.
  intros Hc Hk m. destruct (Hc m) as [l1 E1].
  destruct (Hk (emit l1 m)) as [l2 E2].
  exists (l1 ++ l2). unfold bind. now rewrite E1, E2, emit_emit.
Qed.

Lemma appends_send_byte rs n : appends (lcd8574_send_byte rs n).
Proof. intros m. eexists. apply send_byte_run. Qed.

Lemma appends_loop s : forall row col wrap,
  appends (write_string_loop row col s wrap).
Proof.
  induction s as [|c s IH]; intros row col wrap; [apply appends_ret|].
  intros m. cbn [write_string_loop]. unfold bind at 1 2, get_rows, get_cols.
  destruct (negb (c =? 0) && (row <? rows (self m)) && (col <? cols (self m)));
    [|apply appends_ret].
  destruct ((cols (self m) <=? to_int (col + 1)) && wrap).
  - apply appends_bind; [apply appends_send_byte|].
    apply appends_bind; [apply appends_send_byte|apply IH].
  - apply appends_bind; [apply appends_send_byte|apply IH].
Qed.

Lemma appends_write_string_at row col s wrap :
  appends (lcd8574_write_string_at row col s wrap).
Proof.
  intros m. unfold lcd8574_write_string_at, bind at 1 2, get_rows, get_cols.
  destruct ((row <? rows (self m)) && (col <? cols (self m)));
    [|apply appends_ret].
  apply appends_bind; [apply appends_send_byte|apply appends_loop].
Qed.

Lemma appends_write_char_at row col c :
  appends (lcd8574_write_char_at row col c).
Proof.
  intros m. unfold lcd8574_write_char_at, bind at 1 2, get_rows, get_cols.
  destruct ((row <? rows (self m)) && (col <? cols (self m)));
    [|apply appends_ret].
  apply appends_bind; apply appends_send_byte.
Qed.

Lemma appends_self c m : appends c -> self (exec c m) = self m.
Proof. intros H. destruct (H m) as [l E]. unfold exec. now rewrite E. Qed.

Lemma appends_clear : appends lcd8574_clear.
Proof. unfold lcd8574_clear. apply appends_send_byte. Qed.

Lemma appends_set_mode mode : appends (lcd8574_set_mode mode).
Proof. unfold lcd8574_set_mode. apply appends_send_byte. Qed.

Lemma appends_set_cursor row col : appends (lcd8574_set_cursor row col).
Proof. unfold lcd8574_set_cursor. apply appends_write_string_at. Qed.

(** *** Initialisation and teardown *)

Lemma init_run_open_fails e m :
  env_open e < 0 ->
  lcd8574_init e m
  = ((FALSE, Some ("Can't open I2C device: " ++ env_strerror e)%string),
     mkMachine (with_fd (env_open e) (self m))
               (trace m ++ [EvOpen I2C_DEV O_WRONLY (env_open e)])).
Proof.
  intros H. unfold lcd8574_init, sys_open, set_fd, get_fd, log, ret, bind.
  cbn [self trace fd with_fd].
  replace (0 <=? env_open e) with false by (symmetry; now apply Z.leb_gt).
  reflexivity.
Qed.

Lemma init_run_bind_fails e m :
  0 <= env_open e -> env_ioctl e < 0 ->
  lcd8574_init e m
  = ((FALSE, Some ("Can't intialize I2C device: " ++ env_strerror e)%string),
     mkMachine (with_fd (env_open e) (self m))
               (trace m ++ [EvOpen I2C_DEV O_WRONLY (env_open e);
                            EvIoctl (env_open e) I2C_SLAVE (i2c_addr (self m))
                                    (env_ioctl e)])).
Proof.
  intros Ho Hi.
  unfold lcd8574_init, sys_open, sys_ioctl, set_fd, get_fd, get_i2c_addr,
    log, ret, bind.
  cbn [self trace fd i2c_addr with_fd].
  replace (0 <=? env_open e) with true by (symmetry; now apply Z.leb_le).
  replace (0 <=? env_ioctl e) with false by (symmetry; now apply Z.leb_gt).
  cbn [self trace fd i2c_addr with_fd]. rewrite <- app_assoc. reflexivity.
Qed.

Lemma init_run_ok e m :
  0 <= env_open e -> 0 <= env_ioctl e ->
  lcd8574_init e m
  = ((TRUE, None),
     mkMachine
       (with_ready TRUE (with_fd (env_open e) (self m)))
       (trace m
        ++ [EvOpen I2C_DEV O_WRONLY (env_open e);
            EvIoctl (env_open e) I2C_SLAVE (i2c_addr (self m)) (env_ioctl e);
            EvWrite (env_open e) 0; EvUsleep 35000]
        ++ strobe (env_open e) FALSE 3 ++ [EvUsleep 35000]
        ++ strobe (env_open e) FALSE 3 ++ [EvUsleep 35000]
        ++ strobe (env_open e) FALSE 3 ++ [EvUsleep 35000]
        ++ strobe (env_open e) FALSE 2 ++ [EvUsleep 35000]
        ++ (strobe (env_open e) FALSE 2 ++ strobe (env_open e) FALSE 8)
        ++ octet (env_open e) FALSE CMD_CLEAR
        ++ octet (env_open e) FALSE (Z.lor CMD_CTRL LCD_MODE_DISPLAY_ON)
        ++ [EvReady TRUE])).
Proof.
  intros Ho Hi.
  unfold lcd8574_init, lcd8574_clear, lcd8574_set_mode, sys_open, sys_ioctl,
    sys_write, usleep, set_fd, set_ready, get_fd, get_i2c_addr, log, ret.
  unfold bind at 1 2 3 4. cbn [self trace fd i2c_addr with_fd].
  replace (0 <=? env_open e) with true by (symmetry; now apply Z.leb_le).
  unfold bind at 1 2 3 4. cbn [self trace fd i2c_addr with_fd].
  replace (0 <=? env_ioctl e) with true by (symmetry; now apply Z.leb_le).
  change (to_BYTE (Z.shiftr (to_BYTE (Z.lor CMD_FUNC LCD_FUNC_DL)) 4)) with 3.
  change (to_BYTE (Z.shiftr (to_BYTE (Z.lor CMD_FUNC 0)) 4)) with 2.
  change (to_BYTE (Z.lor CMD_FUNC LCD_FUNC_N)) with 40.
  change (to_BYTE (Z.lor CMD_CTRL LCD_MODE_DISPLAY_ON)) with 12.
  change (Z.lor CMD_CTRL LCD_MODE_DISPLAY_ON) with 12.
  change (strobe (env_open e) FALSE 2 ++ strobe (env_open e) FALSE 8)
    with (octet (env_open e) FALSE 40).
  unfold bind. cbn [self trace fd with_fd].
  repeat (rewrite ?send_4_bits_run, ?send_byte_run;
          cbn [self trace fd with_fd emit]).
  rewrite <- !app_assoc. reflexivity.
Qed.

Lemma uninit_run m :
  lcd8574_uninit m
  = (tt, mkMachine (with_ready FALSE (self m))
                   (trace m
                    ++ (if 0 <=? fd (self m) then [EvClose (fd (self m))]
                        else [])
                    ++ [EvReady FALSE])).
Proof.
  unfold lcd8574_uninit, sys_close, set_ready, get_fd, log, ret, bind.
  destruct (0 <=? fd (self m)); cbn [self trace];
    rewrite <- ?app_assoc; reflexivity.
Qed.

Lemma destroy_run m :
  lcd8574_destroy m
  = (tt, mkMachine (with_ready FALSE (self m))
                   (trace m
                    ++ (if 0 <=? fd (self m) then [EvClose (fd (self m))]
                        else [])
                    ++ [EvReady FALSE; EvFree])).
Proof.
  unfold lcd8574_destroy, bind. rewrite uninit_run.
  unfold sys_free, log. cbn [self trace].
  rewrite <- !app_assoc. reflexivity.
Qed.

(** *** Histories *)

Lemma exec_bind (c k : M unit) m : exec (c ;; k) m = exec k (exec c m).
Proof. unfold exec, bind. now destruct (c m). Qed.

Lemma call_self c m :
  self (exec (call c) m)
  = match c with
    | CallInit e =>
      if (0 <=? env_open e) && (0 <=? env_ioctl e)
      then with_ready TRUE (with_fd (env_open e) (self m))
      else with_fd (env_open e) (self m)
    | CallUninit | CallDestroy => with_ready FALSE (self m)
    | _ => self m
    end.
Proof.
  destruct c as [e| | |row col b|row col s wrap| |mode|row col];
    cbn [call].
  - unfold exec, bind.
    destruct (Z.leb_spec 0 (env_open e)) as [Ho|Ho].
    + destruct (Z.leb_spec 0 (env_ioctl e)) as [Hi|Hi].
      * now rewrite init_run_ok.
      * now rewrite init_run_bind_fails.
    + now rewrite init_run_open_fails.
  - unfold exec. now rewrite uninit_run.
  - unfold exec. now rewrite destroy_run.
  - apply appends_self, appends_write_char_at.
  - apply appends_self, appends_write_string_at.
  - apply appends_self, appends_clear.
  - apply appends_self, appends_set_mode.
  - apply appends_self, appends_set_cursor.
Qed.

(** Under the life cycle a ready object holds a descriptor. *)
Lemma ready_has_fd cs : forall m,
  lifecycle m cs = true ->
  (ready (self m) = TRUE -> 0 <= fd (self m)) ->
  ready (self (exec (run cs) m)) = TRUE -> 0 <= fd (self (exec (run cs) m)).
Proof.
  induction cs as [|c cs IH]; intros m Hl Hinv; [exact Hinv|].
  cbn [run]. rewrite exec_bind.
  cbn [lifecycle] in Hl. apply andb_prop in Hl. destruct Hl as [Hc Hl].
  apply IH; [exact Hl|]. rewrite call_self.
  destruct c as [e| | |row col b|row col s wrap| |mode|row col];
    try exact Hinv; try (cbn [ready with_ready]; discriminate).
  destruct (Z.leb_spec 0 (env_open e)) as [Ho|Ho]; cbn [andb].
  - destruct (0 <=? env_ioctl e); intros _; exact Ho.
  - cbn [ready fd with_fd]. apply negb_true_iff in Hc.
    rewrite Hc. discriminate.
Qed.

(** Without teardown and without a refusal at the slave address, a
    descriptor is only held by a ready object. *)
Lemma fd_has_ready cs : forall m,
  forallb quiet cs = true ->
  (0 <= fd (self m) -> ready (self m) = TRUE) ->
  0 <= fd (self (exec (run cs) m)) -> ready (self (exec (run cs) m)) = TRUE.
Proof.
  induction cs as [|c cs IH]; intros m Hq Hinv; [exact Hinv|].
  cbn [run]. rewrite exec_bind.
  cbn [forallb] in Hq. apply andb_prop in Hq. destruct Hq as [Hc Hq'].
  apply IH; [exact Hq'|]. rewrite call_self.
  destruct c as [e| | |row col b|row col s wrap| |mode|row col];
    try exact Hinv; try discriminate Hc.
  cbn [quiet] in Hc. unfold bind_fails in Hc.
  destruct (Z.leb_spec 0 (env_open e)) as [Ho|Ho]; cbn [andb negb] in *.
  - destruct (0 <=? env_ioctl e); [reflexivity|discriminate].
  - cbn [fd with_fd]. lia.
Qed.

(* ===================================================================== *)
(** ** The nibble transaction *)

(** C1, as stated, does not hold: with the layout
    [D7 D6 D5 D4 | LED | RS | RW | E] of the specification a command
    nibble 0 would go out as 0x09 (clock high) and 0x08 (clock low); the
    driver writes 0x0C and 0x08, because [PIN_E] is line 2 and [PIN_RS] is
    line 0. *)
Lemma send_4_bits_spec_layout_fails :
  ~ (forall (rs : BOOL) (n : BYTE) (m : Machine),
       lcd8574_send_4_bits rs n m
       = (tt, emit [EvWrite (fd (self m)) (spec_byte rs n true);
                    EvUsleep 1000;
                    EvWrite (fd (self m)) (spec_byte rs n false);
                    EvUsleep 1000] m)).
Proof.
  intros H. specialize (H FALSE 0 (boot 39 2 16)).
  rewrite send_4_bits_run in H.
  apply (f_equal (fun p => trace (snd p))) in H.
  vm_compute in H. discriminate H.
Qed.

(** C1 (amended): every nibble transaction writes exactly two bytes, each
    followed by [usleep (1000)], and nothing before them.  Both bytes have
    the layout [D7 D6 D5 D4 | LED | E | RW | RS]: the low four bits of the
    nibble on lines 7-4, line 3 (backlight) set, line 2 the clock (high in
    the first byte, low in the second), line 1 (RW) clear, line 0 the
    register select (0 command, 1 data).  The object is left as it was. *)
Theorem send_4_bits_wire_format (rs : BOOL) (n : BYTE) (m : Machine) :
  lcd8574_send_4_bits rs n m
  = (tt, emit [EvWrite (fd (self m))
                 (pack8 (Z.testbit n 3) (Z.testbit n 2) (Z.testbit n 1)
                        (Z.testbit n 0) true true false rs);
               EvUsleep 1000;
               EvWrite (fd (self m))
                 (pack8 (Z.testbit n 3) (Z.testbit n 2) (Z.testbit n 1)
                        (Z.testbit n 0) true false false rs);
               EvUsleep 1000] m).
Proof.
  rewrite send_4_bits_run. unfold strobe.
  rewrite !line_byte_wired. reflexivity.
Qed.

(* ===================================================================== *)
(** ** Writing a string *)

Lemma count_writes_app l1 l2 :
  count_writes (l1 ++ l2) = (count_writes l1 + count_writes l2)%nat.
Proof. unfold count_writes. now rewrite filter_app, length_app. Qed.

Lemma count_writes_strobe f rs n : count_writes (strobe f rs n) = 2%nat.
Proof. reflexivity. Qed.

Lemma count_writes_octet f rs n : count_writes (octet f rs n) = 4%nat.
Proof.
  unfold octet. now rewrite count_writes_app, !count_writes_strobe.
Qed.

Lemma count_writes_chars f s :
  count_writes (chars f s) = (4 * List.length s)%nat.
Proof.
  induction s as [|c s IH]; [reflexivity|].
  cbn [chars flat_map List.length].
  rewrite count_writes_app, count_writes_octet.
  unfold chars in IH. rewrite IH. lia.
Qed.

(** Side conditions of the loop lemmas. *)
Ltac side :=
  rewrite ?self_emit; cbn [List.length];
  first [assumption | lia | now left | right; lia].

Lemma write_string_loop_nil row col wrap m :
  write_string_loop row col [] wrap m = (tt, m).
Proof. reflexivity. Qed.

(** C2: on a 2 x 16 display, [write_string_at (0, 0, "12:34:56", FALSE)]
    logs the set-address command byte 0x80 and then the eight characters
    as data bytes and nothing else; that is 36 calls of [write].  Every
    byte goes out as two nibble transactions, the high nibble first, and a
    nibble transaction is a write with the clock high followed by a write
    with the clock low.  The value of [ready] plays no part: the write
    path never reads it. *)
Theorem write_time_string_36_writes (m : Machine) :
  rows (self m) = 2 -> cols (self m) = 16 ->
  lcd8574_write_string_at 0 0 (bytes_of_string "12:34:56") FALSE m
  = (tt, emit (octet (fd (self m)) FALSE 0x80
               ++ chars (fd (self m)) [49; 50; 58; 51; 52; 58; 53; 54]) m)
  /\ count_writes (octet (fd (self m)) FALSE 0x80
                   ++ chars (fd (self m)) [49; 50; 58; 51; 52; 58; 53; 54])
     = 36%nat
  /\ written (octet (fd (self m)) FALSE 0x80
              ++ chars (fd (self m)) [49; 50; 58; 51; 52; 58; 53; 54])
     = [0x8C; 0x88; 0x0C; 0x08;  0x3D; 0x39; 0x1D; 0x19;
        0x3D; 0x39; 0x2D; 0x29;  0x3D; 0x39; 0xAD; 0xA9;
        0x3D; 0x39; 0x3D; 0x39;  0x3D; 0x39; 0x4D; 0x49;
        0x3D; 0x39; 0xAD; 0xA9;  0x3D; 0x39; 0x5D; 0x59;
        0x3D; 0x39; 0x6D; 0x69]
  /\ (forall rs n,
        octet (fd (self m)) rs n
        = strobe (fd (self m)) rs (Z.land (Z.shiftr n 4) 15 mod 256)
          ++ strobe (fd (self m)) rs (Z.land n 15 mod 256))
  /\ (forall rs n,
        strobe (fd (self m)) rs n
        = [EvWrite (fd (self m)) (wired_byte rs n true); EvUsleep 1000;
           EvWrite (fd (self m)) (wired_byte rs n false); EvUsleep 1000]).
Proof.
  intros Hr Hk. split; [|split; [|split; [|split]]].
  - rewrite write_string_at_run by lia.
    change (bytes_of_string "12:34:56")
      with ([49; 50; 58; 51; 52; 58; 53; 54] ++ []).
    rewrite write_string_loop_row.
    + rewrite write_string_loop_nil, emit_emit. reflexivity.
    + repeat constructor; discriminate.
    + rewrite self_emit, Hk. unfold is_int, INT_MIN, INT_MAX. lia.
    + rewrite self_emit. lia.
    + lia.
    + rewrite self_emit, Hk. cbn [List.length]. lia.
    + now left.
  - rewrite count_writes_app, count_writes_octet, count_writes_chars.
    reflexivity.
  - reflexivity.
  - intros rs n. reflexivity.
  - intros rs n. unfold strobe. now rewrite !line_byte_wired.
Qed.

Lemma write_time_string_36_writes_witness :
  let m := exec (lcd8574_init (mkEnv 3 0 "")) (boot 39 2 16) in
  ready (self m) = TRUE
  /\ lcd8574_write_string_at 0 0 (bytes_of_string "12:34:56") FALSE m
     = (tt, emit (octet 3 FALSE 0x80
                  ++ chars 3 [49; 50; 58; 51; 52; 58; 53; 54]) m).
Proof.
  split; [reflexivity|].
  apply (write_time_string_36_writes
           (exec (lcd8574_init (mkEnv 3 0 "")) (boot 39 2 16)));
    reflexivity.
Defined.




(** C4, as stated, does not hold on a display with a single column: the
    second of the two characters fills row 1 as well, so a third
    set-address command (for row index 2) follows it. *)
Lemma wrap_one_column_third_command :
  lcd8574_write_string_at 0 0 ([65] ++ [66]) TRUE (boot 39 2 1)
  <> (tt, emit (set_addr (-1) 0 0 ++ chars (-1) [65]
                ++ set_addr (-1) 1 0 ++ octet (-1) TRUE 66) (boot 39 2 1))
  /\ lcd8574_write_string_at 0 0 ([65] ++ [66]) TRUE (boot 39 2 1)
     = (tt, emit (set_addr (-1) 0 0 ++ chars (-1) [65]
                  ++ set_addr (-1) 1 0 ++ octet (-1) TRUE 66
                  ++ set_addr (-1) 2 0) (boot 39 2 1)).
Proof.
  split; [|reflexivity].
  intros H. apply (f_equal (fun p => List.length (trace (snd p)))) in H.
  vm_compute in H. discriminate H.
Qed.

(** C4 (amended): on a display with two rows and at least two columns,
    [write_string_at (0, 0, s, TRUE)] with [s] of [cols + 1] characters
    logs the address command 0x80 (address 0), the first [cols] characters,
    the address command 0xC0 (address 64) and the last character, and
    nothing else.  With [wrap] clear, a run of characters that reaches the
    end of its row is written and whatever follows it in the string
    leaves no trace in the log. *)
Theorem write_string_wrap_row_end (m : Machine) (s1 : list BYTE) (c : BYTE) :
  rows (self m) = 2 ->
  2 <= cols (self m) -> is_int (cols (self m)) ->
  no_nul s1 -> c <> 0 ->
  Z.of_nat (List.length s1) = cols (self m) ->
  lcd8574_write_string_at 0 0 (s1 ++ [c]) TRUE m
  = (tt, emit (octet (fd (self m)) FALSE 0x80 ++ chars (fd (self m)) s1
               ++ octet (fd (self m)) FALSE 0xC0
               ++ octet (fd (self m)) TRUE c) m)
  /\ set_addr (fd (self m)) 0 0 = octet (fd (self m)) FALSE 0x80
  /\ set_addr (fd (self m)) 1 0 = octet (fd (self m)) FALSE 0xC0
  /\ (forall row col s rest,
        row < rows (self m) -> 0 <= col -> no_nul s -> s <> [] ->
        col + Z.of_nat (List.length s) = cols (self m) ->
        lcd8574_write_string_at row col (s ++ rest) FALSE m
        = (tt, emit (set_addr (fd (self m)) row col ++ chars (fd (self m)) s)
                    m)).
Proof.
  intros Hr Hk Hik Hs Hc Hlen.
  assert (Hne : s1 <> []) by (intros ->; cbn [List.length] in Hlen; lia).
  assert (Hir : is_int (rows (self m)))
    by (rewrite Hr; unfold is_int, INT_MIN, INT_MAX; lia).
  assert (Hi0 : is_int 0) by (unfold is_int, INT_MIN, INT_MAX; lia).
  assert (Hc1 : no_nul [c]) by (repeat constructor; exact Hc).
  split; [|split; [|split]].
  - rewrite write_string_at_run by lia.
    rewrite write_string_loop_fill by side.
    change [c] with ([c] ++ []).
    rewrite write_string_loop_row by side.
    rewrite write_string_loop_nil, !emit_emit.
    cbn [chars flat_map]. rewrite app_nil_r, <- !app_assoc.
    reflexivity.
  - reflexivity.
  - reflexivity.
  - intros row col s rest Hrow Hcol Hs' Hne' Hfit.
    assert (0 < Z.of_nat (List.length s))
      by (destruct s; [contradiction|cbn [List.length]; lia]).
    rewrite write_string_at_run by lia.
    rewrite write_string_loop_row by side.
    rewrite write_string_loop_off by (rewrite !self_emit; lia).
    now rewrite emit_emit, self_emit.
Qed.

Lemma write_string_wrap_row_end_witness :
  lcd8574_write_string_at 0 0 ([65; 66] ++ [67]) TRUE (boot 39 2 2)
  = (tt, emit (octet (-1) FALSE 0x80 ++ chars (-1) [65; 66]
               ++ octet (-1) FALSE 0xC0 ++ octet (-1) TRUE 67)
              (boot 39 2 2))
  /\ lcd8574_write_string_at 0 0 ([65; 66] ++ [67; 68]) FALSE (boot 39 2 2)
     = (tt, emit (set_addr (-1) 0 0 ++ chars (-1) [65; 66]) (boot 39 2 2)).
Proof.
  assert (Hi : is_int 2) by (unfold is_int, INT_MIN, INT_MAX; lia).
  assert (Hn : no_nul [65; 66]) by (repeat constructor; discriminate).
  split.
  - apply (write_string_wrap_row_end (boot 39 2 2) [65; 66] 67);
      [reflexivity | simpl; lia | exact Hi | exact Hn | discriminate
      | reflexivity].
  - apply (write_string_wrap_row_end (boot 39 2 2) [65; 66] 67);
      [reflexivity | simpl; lia | exact Hi | exact Hn | discriminate
      | reflexivity | simpl; lia | lia | exact Hn | discriminate
      | reflexivity].
Defined.

(* ===================================================================== *)
(** ** Positions outside the display *)

(** On a display that was never initialised the same happens:
    [write_char_at (-1, 0, 'A')] and [write_string_at (-1, 0, "A", FALSE)]
    make eight writes each. *)
Lemma negative_row_is_written :
  count_writes (trace (exec (lcd8574_write_char_at (-1) 0 65) (boot 39 2 16)))
  = 8%nat
  /\ count_writes
       (trace (exec (lcd8574_write_string_at (-1) 0 [65] FALSE)
                    (boot 39 2 16)))
     = 8%nat.
Proof. split; reflexivity. Qed.

(** C5, at the code: the guard of [write_char_at] and [write_string_at]
    compares with [rows] and [cols] only, so a negative row or column
    below them passes it, although the header says that the method does
    nothing when row and column are out of range.  [write_char_at] then
    sends the address command and the data byte (eight writes), and
    [write_string_at] sends the address command (four writes) and enters
    its loop.  On a 2 x 16 display the position (-1, 0) gets the command
    byte 0xC0: the character lands on the cell (1, 0). *)
Theorem negative_position_is_written
  (row col : Z) (c : BYTE) (s : list BYTE) (wrap : BOOL) (m : Machine) :
  row < 0 \/ col < 0 ->
  row < rows (self m) -> col < cols (self m) ->
  lcd8574_write_char_at row col c m
  = (tt, emit (set_addr (fd (self m)) row col ++ octet (fd (self m)) TRUE c) m)
  /\ count_writes (set_addr (fd (self m)) row col
                   ++ octet (fd (self m)) TRUE c) = 8%nat
  /\ lcd8574_write_string_at row col s wrap m
     = write_string_loop row col s wrap
         (emit (set_addr (fd (self m)) row col) m)
  /\ count_writes (set_addr (fd (self m)) row col) = 4%nat.
Proof.
  intros _ Hr Hc. split; [|split; [|split]].
  - unfold lcd8574_write_char_at, bind at 1 2, get_rows, get_cols.
    replace (row <? rows (self m)) with true by (symmetry; now apply Z.ltb_lt).
    replace (col <? cols (self m)) with true by (symmetry; now apply Z.ltb_lt).
    cbn [andb]. unfold bind. rewrite !send_byte_run, emit_emit, ?self_emit.
    reflexivity.
  - unfold set_addr. now rewrite count_writes_app, !count_writes_octet.
  - apply write_string_at_run; assumption.
  - apply count_writes_octet.
Qed.

Lemma negative_position_is_written_witness :
  let m := exec (lcd8574_init (mkEnv 3 0 "")) (boot 39 2 16) in
  lcd8574_write_char_at (-1) 0 65 m
  = (tt, emit (set_addr 3 (-1) 0 ++ octet 3 TRUE 65) m)
  /\ written (set_addr 3 (-1) 0 ++ octet 3 TRUE 65)
     = [0xCC; 0xC8; 0x0C; 0x08; 0x4D; 0x49; 0x1D; 0x19]
  /\ lcd8574_write_char_at (-1) 0 65 m = lcd8574_write_char_at 1 0 65 m.
Proof.
  cbv zeta. split; [|split; vm_compute; reflexivity].
  apply (negative_position_is_written (-1) 0 65 [] FALSE
           (exec (lcd8574_init (mkEnv 3 0 "")) (boot 39 2 16)));
    [left; lia | reflexivity | reflexivity].
Defined.

(** The upper bounds are checked: whenever [row >= rows] or [col >= cols],
    [write_char_at] and [write_string_at] return without any call and
    without touching the object; nothing is reported. *)
Theorem write_beyond_bounds_noop
  (row col : Z) (c : BYTE) (s : list BYTE) (wrap : BOOL) (m : Machine) :
  rows (self m) <= row \/ cols (self m) <= col ->
  lcd8574_write_char_at row col c m = (tt, m)
  /\ lcd8574_write_string_at row col s wrap m = (tt, m).
Proof.
  intros H.
  assert (E : (row <? rows (self m)) && (col <? cols (self m)) = false)
    by (rewrite andb_false_iff, !Z.ltb_ge; tauto).
  unfold lcd8574_write_char_at, lcd8574_write_string_at, bind,
    get_rows, get_cols.
  rewrite E. split; reflexivity.
Qed.

Lemma write_beyond_bounds_noop_witness :
  lcd8574_write_char_at 2 0 65 (boot 39 2 16) = (tt, boot 39 2 16)
  /\ lcd8574_write_string_at 0 16 [65; 66] TRUE (boot 39 2 16)
     = (tt, boot 39 2 16).
Proof.
  split.
  - apply (write_beyond_bounds_noop 2 0 65 [] FALSE (boot 39 2 16)).
    left. simpl. lia.
  - apply (write_beyond_bounds_noop 0 16 0 [65; 66] TRUE (boot 39 2 16)).
    right. simpl. lia.
Defined.

(* ===================================================================== *)
(** ** Initialisation *)

(** C6: when [open] and [ioctl] succeed, [lcd8574_init] returns [TRUE],
    stores nothing through [error], and its log is, in this order: the two
    calls; a zero byte and [usleep (35000)]; the nibble 0x3 as a command
    nibble transaction followed by [usleep (35000)], three times; the
    nibble 0x2 followed by [usleep (35000)]; the function-set byte 0x28
    as the nibble transactions 0x2 and 0x8; the clear-display command; the
    control command with the display-on flag; and last of all the store
    of [TRUE] to [ready]. *)
Theorem init_handshake_order (e : Env) (m : Machine) :
  0 <= env_open e -> 0 <= env_ioctl e ->
  lcd8574_init e m
  = ((TRUE, None),
     mkMachine
       (with_ready TRUE (with_fd (env_open e) (self m)))
       (trace m
        ++ [EvOpen I2C_DEV O_WRONLY (env_open e);
            EvIoctl (env_open e) I2C_SLAVE (i2c_addr (self m)) (env_ioctl e);
            EvWrite (env_open e) 0; EvUsleep 35000]
        ++ strobe (env_open e) FALSE 3 ++ [EvUsleep 35000]
        ++ strobe (env_open e) FALSE 3 ++ [EvUsleep 35000]
        ++ strobe (env_open e) FALSE 3 ++ [EvUsleep 35000]
        ++ strobe (env_open e) FALSE 2 ++ [EvUsleep 35000]
        ++ (strobe (env_open e) FALSE 2 ++ strobe (env_open e) FALSE 8)
        ++ octet (env_open e) FALSE CMD_CLEAR
        ++ octet (env_open e) FALSE (Z.lor CMD_CTRL LCD_MODE_DISPLAY_ON)
        ++ [EvReady TRUE])).
Proof. apply init_run_ok. Qed.

Lemma init_handshake_order_witness :
  eval (lcd8574_init (mkEnv 3 0 "")) (boot 39 2 16) = (TRUE, None)
  /\ ready (self (exec (lcd8574_init (mkEnv 3 0 "")) (boot 39 2 16))) = TRUE
  /\ written (trace (exec (lcd8574_init (mkEnv 3 0 "")) (boot 39 2 16)))
     = [0x00;  0x3C; 0x38;  0x3C; 0x38;  0x3C; 0x38;  0x2C; 0x28;
        0x2C; 0x28; 0x8C; 0x88;  0x0C; 0x08; 0x1C; 0x18;
        0x0C; 0x08; 0xCC; 0xC8].
Proof.
  unfold eval, exec.
  rewrite (init_handshake_order (mkEnv 3 0 "") (boot 39 2 16));
    [repeat split | simpl; lia | simpl; lia].
Defined.

(** C7: when [open] succeeds and [ioctl] fails, [lcd8574_init] returns
    [FALSE] and stores a message that ends with the text of the operating
    system error; the log holds the two calls and nothing after them (no
    write, no delay, no store to [ready]); [ready] keeps its value, so an
    object that was not ready is still not ready. *)
Theorem init_bind_failure (e : Env) (m : Machine) :
  0 <= env_open e -> env_ioctl e < 0 ->
  lcd8574_init e m
  = ((FALSE, Some ("Can't intialize I2C device: " ++ env_strerror e)%string),
     mkMachine (with_fd (env_open e) (self m))
               (trace m ++ [EvOpen I2C_DEV O_WRONLY (env_open e);
                            EvIoctl (env_open e) I2C_SLAVE (i2c_addr (self m))
                                    (env_ioctl e)]))
  /\ ready (self (exec (lcd8574_init e) m)) = ready (self m)
  /\ (ready (self m) = FALSE ->
      ready (self (exec (lcd8574_init e) m)) = FALSE).
Proof.
  intros Ho Hi. unfold exec. rewrite init_run_bind_fails by assumption.
  repeat split. intros H. exact H.
Qed.

Lemma init_bind_failure_witness :
  lcd8574_init (mkEnv 3 (-1) "Remote I/O error") (boot 39 2 16)
  = ((FALSE, Some "Can't intialize I2C device: Remote I/O error"%string),
     mkMachine (mkLCD8574 39 3 2 16 FALSE)
               [EvOpen I2C_DEV O_WRONLY 3; EvIoctl 3 I2C_SLAVE 39 (-1)]).
Proof.
  apply (init_bind_failure (mkEnv 3 (-1) "Remote I/O error") (boot 39 2 16));
    simpl; lia.
Defined.

(* ===================================================================== *)
(** ** Teardown *)

(** On an object that holds no descriptor, as after [lcd8574_create],
    teardown makes no call at all, however often it is repeated. *)
Lemma uninit_fresh_no_close (addr r c : Z) :
  (lcd8574_uninit ;; lcd8574_uninit) (boot addr r c)
  = (tt, mkMachine (lcd8574_create addr r c) [EvReady FALSE; EvReady FALSE]).
Proof. reflexivity. Qed.

(** C8, at the code: [lcd8574_uninit] closes the descriptor whenever it
    is not negative and never resets it, so a second call in a row closes
    the same descriptor a second time.  Both calls return nothing and
    leave [ready] false. *)
Theorem uninit_twice_closes_twice (m : Machine) :
  0 <= fd (self m) ->
  (lcd8574_uninit ;; lcd8574_uninit) m
  = (tt, mkMachine (with_ready FALSE (self m))
                   (trace m ++ [EvClose (fd (self m)); EvReady FALSE;
                                EvClose (fd (self m)); EvReady FALSE]))
  /\ count_close (fd (self m))
       [EvClose (fd (self m)); EvReady FALSE;
        EvClose (fd (self m)); EvReady FALSE] = 2%nat
  /\ fd (self (exec (lcd8574_uninit ;; lcd8574_uninit) m)) = fd (self m)
  /\ ready (self (exec (lcd8574_uninit ;; lcd8574_uninit) m)) = FALSE.
Proof.
  intros H.
  assert (E : (lcd8574_uninit ;; lcd8574_uninit) m
              = (tt, mkMachine (with_ready FALSE (self m))
                       (trace m ++ [EvClose (fd (self m)); EvReady FALSE;
                                    EvClose (fd (self m)); EvReady FALSE]))).
  { unfold bind. rewrite !uninit_run. cbn [self trace fd with_ready].
    replace (0 <=? fd (self m)) with true by (symmetry; now apply Z.leb_le).
    rewrite <- !app_assoc. reflexivity. }
  unfold exec. rewrite E. split; [reflexivity|]. split; [|split; reflexivity].
  unfold count_close. cbn [filter is_close]. rewrite Z.eqb_refl. reflexivity.
Qed.

Lemma uninit_twice_closes_twice_witness :
  let m := exec (lcd8574_init (mkEnv 3 0 "")) (boot 39 2 16) in
  fd (self m) = 3
  /\ trace (exec (lcd8574_uninit ;; lcd8574_uninit) m)
     = trace m ++ [EvClose 3; EvReady FALSE; EvClose 3; EvReady FALSE].
Proof.
  split; [reflexivity|].
  unfold exec at 1.
  destruct (uninit_twice_closes_twice
              (exec (lcd8574_init (mkEnv 3 0 "")) (boot 39 2 16)))
    as [E _]; [simpl; lia|].
  rewrite E. reflexivity.
Defined.

(* ===================================================================== *)
(** ** Descriptor and ready flag *)

(** C9, as stated, does not hold: after an [lcd8574_init] that opens the
    device and is refused at the slave address, the object holds the
    descriptor and is not ready. *)
Lemma handle_held_while_not_ready :
  let m := exec (run [CallInit (mkEnv 3 (-1) "Remote I/O error")])
                (boot 39 2 16) in
  ~ (0 <= fd (self m) <-> ready (self m) = TRUE).
Proof.
  cbv zeta. intros [H _].
  assert (E : ready (self (exec (run [CallInit (mkEnv 3 (-1)
                                         "Remote I/O error")])
                                (boot 39 2 16))) = FALSE) by reflexivity.
  rewrite E in H. discriminate H. simpl. lia.
Qed.

(** C9 (amended): in every state reached from [lcd8574_create] by calls
    that follow the life cycle ([lcd8574_init] only on an object that is
    not ready, nothing after [lcd8574_destroy]), a ready object holds a
    descriptor [fd >= 0].  The converse holds as long as the history has
    no teardown and no [lcd8574_init] refused at the slave address; after
    such a refusal the descriptor stays in the object, which is not
    ready. *)
Theorem ready_iff_handle_on_quiet_histories
  (addr r c : Z) (cs : list Call) :
  lifecycle (boot addr r c) cs = true ->
  (ready (self (exec (run cs) (boot addr r c))) = TRUE ->
   0 <= fd (self (exec (run cs) (boot addr r c))))
  /\ (forallb quiet cs = true ->
      0 <= fd (self (exec (run cs) (boot addr r c))) ->
      ready (self (exec (run cs) (boot addr r c))) = TRUE)
  /\ (forall e, 0 <= env_open e -> env_ioctl e < 0 ->
      lifecycle (boot addr r c) (cs ++ [CallInit e]) = true ->
      0 <= fd (self (exec (run (cs ++ [CallInit e])) (boot addr r c)))
      /\ ready (self (exec (run (cs ++ [CallInit e])) (boot addr r c)))
         = FALSE).
Proof.
  intros Hl. split; [|split].
  - apply ready_has_fd; [exact Hl|]. cbn. discriminate.
  - intros Hq. apply fd_has_ready; [exact Hq|]. cbn. lia.
  - intros e Ho Hi Hl'.
    assert (Hrun : forall l m, exec (run (l ++ [CallInit e])) m
                               = exec (call (CallInit e)) (exec (run l) m)).
    { induction l as [|x l IH]; intros m; cbn [run app].
      - rewrite exec_bind. reflexivity.
      - rewrite !exec_bind. apply IH. }
    assert (Hlast : forall l m, lifecycle m (l ++ [CallInit e]) = true ->
                                ready (self (exec (run l) m)) = FALSE).
    { induction l as [|x l IH]; intros m Hm; cbn [app lifecycle run] in *;
        apply andb_prop in Hm; destruct Hm as [Hx Hm].
      - now apply negb_true_iff in Hx.
      - rewrite exec_bind. apply IH. exact Hm. }
    rewrite Hrun, call_self.
    replace (0 <=? env_open e) with true by (symmetry; now apply Z.leb_le).
    replace (0 <=? env_ioctl e) with false by (symmetry; now apply Z.leb_gt).
    cbn [andb fd ready with_fd]. split; [exact Ho|].
    apply Hlast. exact Hl'.
Qed.

Lemma ready_iff_handle_on_quiet_histories_witness :
  let cs := [CallInit (mkEnv (-1) 0 "No such file or directory");
             CallInit (mkEnv 3 0 "");
             CallWriteStringAt 0 0 [72; 105] FALSE;
             CallSetCursor 1 0] in
  lifecycle (boot 39 2 16) cs = true
  /\ forallb quiet cs = true
  /\ (0 <= fd (self (exec (run cs) (boot 39 2 16)))
      <-> ready (self (exec (run cs) (boot 39 2 16))) = TRUE)
  /\ (0 <= fd (self (exec (run (cs ++ [CallUninit;
                                        CallInit (mkEnv 4 (-1) "")]))
                          (boot 39 2 16)))
      /\ ready (self (exec (run (cs ++ [CallUninit;
                                         CallInit (mkEnv 4 (-1) "")]))
                           (boot 39 2 16))) = FALSE).
Proof.
  cbv zeta.
  assert (Hl : lifecycle (boot 39 2 16)
                 [CallInit (mkEnv (-1) 0 "No such file or directory");
                  CallInit (mkEnv 3 0 "");
                  CallWriteStringAt 0 0 [72; 105] FALSE;
                  CallSetCursor 1 0] = true)
    by reflexivity.
  assert (Hq : forallb quiet
                 [CallInit (mkEnv (-1) 0 "No such file or directory");
                  CallInit (mkEnv 3 0 "");
                  CallWriteStringAt 0 0 [72; 105] FALSE;
                  CallSetCursor 1 0] = true)
    by reflexivity.
  split; [exact Hl|]. split; [exact Hq|].
  destruct (ready_iff_handle_on_quiet_histories 39 2 16 _ Hl) as [H1 [H2 _]].
  split; [split; [exact (H2 Hq) | exact H1]|].
  assert (Hl' : lifecycle (boot 39 2 16)
                  [CallInit (mkEnv (-1) 0 "No such file or directory");
                   CallInit (mkEnv 3 0 "");
                   CallWriteStringAt 0 0 [72; 105] FALSE;
                   CallSetCursor 1 0; CallUninit] = true)
    by reflexivity.
  destruct (ready_iff_handle_on_quiet_histories 39 2 16 _ Hl') as [_ [_ H3]].
  apply (H3 (mkEnv 4 (-1) "")); [simpl; lia | simpl; lia | reflexivity].
Defined.

(* ===================================================================== *)
(** ** The address command after a full row *)

(** C10: with [wrap] set, the character that fills the last cell of a
    row is followed at once by the set-address command for the next row,
    address [(row + 1) * 64], whatever comes after it.  When it was the
    last character of the string, or when the next row is no row of the
    display, that command is the last thing logged.  So a string that
    fills this row and the next, the next being the last row, ends with
    the command for the row after the last: for [2 * cols] characters at
    (0, 0) on two rows that is row index 2, address 128, command byte
    0x80. *)
Theorem wrap_sends_next_row_address
  (m : Machine) (row col : Z) (s rest : list BYTE) :
  is_int (rows (self m)) -> is_int (cols (self m)) -> is_int row ->
  row < rows (self m) -> 0 <= col ->
  no_nul s -> s <> [] ->
  col + Z.of_nat (List.length s) = cols (self m) ->
  lcd8574_write_string_at row col (s ++ rest) TRUE m
  = write_string_loop (row + 1) 0 rest TRUE
      (emit (set_addr (fd (self m)) row col ++ chars (fd (self m)) s
             ++ set_addr (fd (self m)) (row + 1) 0) m)
  /\ (rest = [] \/ rows (self m) <= row + 1 ->
      lcd8574_write_string_at row col (s ++ rest) TRUE m
      = (tt, emit (set_addr (fd (self m)) row col ++ chars (fd (self m)) s
                   ++ set_addr (fd (self m)) (row + 1) 0) m))
  /\ set_addr (fd (self m)) (row + 1) 0
     = octet (fd (self m)) FALSE (Z.lor 128 (((row + 1) * 64) mod 256))
  /\ (no_nul rest -> Z.of_nat (List.length rest) = cols (self m) ->
      row + 2 = rows (self m) ->
      lcd8574_write_string_at row col (s ++ rest) TRUE m
      = (tt, emit (set_addr (fd (self m)) row col ++ chars (fd (self m)) s
                   ++ set_addr (fd (self m)) (row + 1) 0
                   ++ chars (fd (self m)) rest
                   ++ set_addr (fd (self m)) (row + 2) 0) m)).
Proof.
  intros Hir Hik Hirow Hrow Hcol Hs Hne Hlen.
  assert (Hpos : 0 < Z.of_nat (List.length s))
    by (destruct s; [contradiction|cbn [List.length]; lia]).
  assert (E : lcd8574_write_string_at row col (s ++ rest) TRUE m
              = write_string_loop (row + 1) 0 rest TRUE
                  (emit (set_addr (fd (self m)) row col
                         ++ chars (fd (self m)) s
                         ++ set_addr (fd (self m)) (row + 1) 0) m)).
  { rewrite write_string_at_run by lia.
    rewrite write_string_loop_fill by side.
    now rewrite emit_emit, self_emit. }
  split; [exact E|]. split; [|split].
  - intros [-> | Hlast].
    + rewrite app_nil_r in *. rewrite E. apply write_string_loop_nil.
    + rewrite E. apply write_string_loop_off. left. now rewrite self_emit.
  - unfold set_addr. rewrite set_addr_byte. now rewrite Z.add_0_r.
  - intros Hrest Hrlen Hrows.
    rewrite E. rewrite <- (app_nil_r rest) at 1.
    assert (Hrne : rest <> [])
      by (intros ->; cbn [List.length] in Hrlen; lia).
    assert (Hi1 : is_int (row + 1))
      by (unfold is_int, INT_MIN, INT_MAX in *; lia).
    rewrite write_string_loop_fill by side.
    rewrite write_string_loop_nil, emit_emit, self_emit.
    replace (row + 1 + 1) with (row + 2) by lia.
    rewrite <- !app_assoc. reflexivity.
Qed.

Lemma wrap_sends_next_row_address_witness :
  lcd8574_write_string_at 0 0 ([65; 66] ++ [67; 68]) TRUE (boot 39 2 2)
  = (tt, emit (set_addr (-1) 0 0 ++ chars (-1) [65; 66]
               ++ set_addr (-1) 1 0 ++ chars (-1) [67; 68]
               ++ set_addr (-1) 2 0) (boot 39 2 2))
  /\ set_addr (-1) 2 0 = octet (-1) FALSE 0x80.
Proof.
  assert (Hi : is_int 2) by (unfold is_int, INT_MIN, INT_MAX; lia).
  assert (Hz : is_int 0) by (unfold is_int, INT_MIN, INT_MAX; lia).
  assert (H1 : no_nul [65; 66]) by (repeat constructor; discriminate).
  assert (H2 : no_nul [67; 68]) by (repeat constructor; discriminate).
  split; [|reflexivity].
  apply (wrap_sends_next_row_address (boot 39 2 2) 0 0 [65; 66] [67; 68]);
    [exact Hi | exact Hi | exact Hz | simpl; lia | lia | exact H1
    | discriminate | reflexivity | exact H2 | reflexivity | reflexivity].
Defined.

(* ===================================================================== *)
(** ** The bit helper *)

Lemma byte_high_bits b j : is_byte b -> 8 <= j -> Z.testbit b j = false.
Proof.
  intros Hb Hj. unfold is_byte in Hb.
  rewrite <- (Z.mod_small b (2 ^ 8)) by (change (2 ^ 8) with 256; lia).
  apply Z.mod_pow2_bits_high. lia.
Qed.

Lemma to_BYTE_is_byte z : is_byte (to_BYTE z).
Proof. unfold is_byte, to_BYTE. apply Z.mod_pos_bound. lia. Qed.

Lemma to_BYTE_bits z j : 0 <= j < 8 -> Z.testbit (to_BYTE z) j = Z.testbit z j.
Proof.
  intros H. unfold to_BYTE. change 256 with (2 ^ 8).
  apply Z.mod_pow2_bits_low. lia.
Qed.

(** X1: on a byte and one of the lines 0 to 7, [lcd8574_set_bit_value]
    returns a byte whose line [bit] is [val] and whose other lines are
    those of [b]. *)
Theorem set_bit_value_spec (b : BYTE) (bit : Z) (val : BOOL) :
  is_byte b -> 0 <= bit < 8 ->
  is_byte (lcd8574_set_bit_value b bit val)
  /\ Z.testbit (lcd8574_set_bit_value b bit val) bit = val
  /\ (forall j, j <> bit ->
        Z.testbit (lcd8574_set_bit_value b bit val) j = Z.testbit b j).
Proof.
  intros Hb Hbit. split; [|split].
  - unfold lcd8574_set_bit_value. destruct val; apply to_BYTE_is_byte.
  - unfold lcd8574_set_bit_value. destruct val; rewrite to_BYTE_bits by lia.
    + rewrite Z.lor_spec, Z.shiftl_1_l, Z.pow2_bits_true by lia.
      apply orb_true_r.
    + rewrite Z.land_spec, Z.lnot_spec, Z.shiftl_1_l, Z.pow2_bits_true by lia.
      apply andb_false_r.
  - intros j Hj.
    destruct (Z.ltb_spec j 0) as [Hneg|Hpos];
      [now rewrite !Z.testbit_neg_r by lia|].
    destruct (Z.ltb_spec j 8) as [Hlow|Hhigh].
    + unfold lcd8574_set_bit_value. destruct val; rewrite to_BYTE_bits by lia.
      * rewrite Z.lor_spec, Z.shiftl_1_l, Z.pow2_bits_false by lia.
        apply orb_false_r.
      * rewrite Z.land_spec, Z.lnot_spec, Z.shiftl_1_l, Z.pow2_bits_false
          by lia.
        apply andb_true_r.
    + rewrite (byte_high_bits b j Hb Hhigh).
      apply byte_high_bits; [|exact Hhigh].
      unfold lcd8574_set_bit_value. destruct val; apply to_BYTE_is_byte.
Qed.

Lemma set_bit_value_spec_witness :
  lcd8574_set_bit_value 0xF0 2 TRUE = 0xF4
  /\ Z.testbit (lcd8574_set_bit_value 0xF0 2 TRUE) 2 = TRUE.
Proof.
  split; [reflexivity|].
  apply (set_bit_value_spec 0xF0 2 TRUE); unfold is_byte; lia.
Defined.

(** X2: the last value given to a line is the one that stays, and a line
    number from 8 on (below the width of [int], where the shift is
    defined) changes nothing: the result is cut to eight bits. *)
Theorem set_bit_value_overwrite (b : BYTE) (bit : Z) (v1 v2 : BOOL) :
  is_byte b -> 0 <= bit < 31 ->
  lcd8574_set_bit_value (lcd8574_set_bit_value b bit v1) bit v2
  = lcd8574_set_bit_value b bit v2
  /\ (8 <= bit -> lcd8574_set_bit_value b bit v1 = b).
Proof.
  intros Hb Hbit.
  assert (Hhigh : 8 <= bit -> forall v, lcd8574_set_bit_value b bit v = b).
  { intros H8 v. apply Z.bits_inj'. intros j Hj.
    destruct (Z.ltb_spec j 8) as [Hlow|Hhi].
    - unfold lcd8574_set_bit_value. destruct v; rewrite to_BYTE_bits by lia.
      + rewrite Z.lor_spec, Z.shiftl_1_l, Z.pow2_bits_false by lia.
        apply orb_false_r.
      + rewrite Z.land_spec, Z.lnot_spec, Z.shiftl_1_l, Z.pow2_bits_false
          by lia.
        apply andb_true_r.
    - rewrite (byte_high_bits b j Hb Hhi). apply byte_high_bits; [|exact Hhi].
      unfold lcd8574_set_bit_value. destruct v; apply to_BYTE_is_byte. }
  split; [|intros H8; now apply Hhigh].
  destruct (Z.ltb_spec bit 8) as [Hlow|H8].
  - assert (Hr : 0 <= bit < 8) by lia.
    pose proof (set_bit_value_spec b bit v1 Hb Hr) as [Hb1 [_ Ho1]].
    pose proof (set_bit_value_spec _ bit v2 Hb1 Hr) as [_ [Hs2 Ho2]].
    pose proof (set_bit_value_spec b bit v2 Hb Hr) as [_ [Hs Ho]].
    apply Z.bits_inj'. intros j Hj.
    destruct (Z.eq_dec j bit) as [->|Hne].
    + now rewrite Hs2, Hs.
    + now rewrite Ho2, Ho1, Ho by exact Hne.
  - now rewrite !Hhigh by exact H8.
Qed.

Lemma set_bit_value_overwrite_witness :
  lcd8574_set_bit_value (lcd8574_set_bit_value 0x30 2 TRUE) 2 FALSE = 0x30
  /\ lcd8574_set_bit_value 0x30 9 TRUE = 0x30.
Proof.
  assert (Hb : is_byte 0x30) by (unfold is_byte; lia).
  split.
  - transitivity (lcd8574_set_bit_value 0x30 2 FALSE); [|reflexivity].
    apply (set_bit_value_overwrite 0x30 2 TRUE FALSE); [exact Hb|lia].
  - apply (set_bit_value_overwrite 0x30 9 TRUE TRUE); [exact Hb|lia|lia].
Defined.

(* ===================================================================== *)
(** ** The wire encoding of a byte *)

Lemma line_byte_arith rs n e :
  line_byte rs n e = 16 * (n mod 16) + 8 + 4 * bit e + bit rs.
Proof.
  unfold line_byte. change 0xF0 with 240. rewrite nibble_field.
  pose proof (Z.mod_pos_bound n 16 ltac:(lia)) as Hk.
  generalize dependent (n mod 16). intros k Hk.
  assert (Hc : k = 0 \/ k = 1 \/ k = 2 \/ k = 3 \/ k = 4 \/ k = 5 \/ k = 6
               \/ k = 7 \/ k = 8 \/ k = 9 \/ k = 10 \/ k = 11 \/ k = 12
               \/ k = 13 \/ k = 14 \/ k = 15) by lia.
  repeat (destruct Hc as [-> | Hc]); try subst k;
    destruct rs, e; reflexivity.
Qed.

Lemma high_nibble n :
  is_byte n -> to_BYTE (Z.land (Z.shiftr n 4) 0x0F) mod 16 = n / 16.
Proof.
  unfold is_byte, to_BYTE. intros H.
  change 0x0F with (Z.ones 4).
  rewrite Z.land_ones, Z.shiftr_div_pow2 by lia.
  change (2 ^ 4) with 16.
  assert (0 <= n / 16 < 16)
    by (split; [apply Z.div_pos; lia | apply Z.div_lt_upper_bound; lia]).
  rewrite (Z.mod_small (n / 16) 16) by lia.
  rewrite (Z.mod_small (n / 16) 256) by lia.
  apply Z.mod_small. lia.
Qed.

Lemma low_nibble n : to_BYTE (Z.land n 0x0F) mod 16 = n mod 16.
Proof.
  unfold to_BYTE. change 0x0F with (Z.ones 4).
  rewrite Z.land_ones by lia. change (2 ^ 4) with 16.
  pose proof (Z.mod_pos_bound n 16 ltac:(lia)).
  rewrite (Z.mod_small (n mod 16) 256) by lia.
  apply Z.mod_small. lia.
Qed.

Lemma octet_arith f rs n :
  is_byte n ->
  octet f rs n
  = [EvWrite f (16 * (n / 16) + 12 + bit rs); EvUsleep 1000;
     EvWrite f (16 * (n / 16) + 8 + bit rs); EvUsleep 1000;
     EvWrite f (16 * (n mod 16) + 12 + bit rs); EvUsleep 1000;
     EvWrite f (16 * (n mod 16) + 8 + bit rs); EvUsleep 1000].
Proof.
  intros H. unfold octet, strobe. rewrite !line_byte_arith.
  rewrite high_nibble by exact H. rewrite low_nibble.
  cbn [app bit]. repeat first [lia | f_equal].
Qed.

Lemma emit_inj l1 l2 m : emit l1 m = emit l2 m -> l1 = l2.
Proof.
  unfold emit. intros H. injection H as H. now apply app_inv_head in H.
Qed.

(** X3: a byte goes out as four writes, each followed by [usleep (1000)]:
    its high nibble on lines 7-4 with the clock high and then low, and the
    same for its low nibble; lines 3-0 carry 8 (backlight), 4 while the
    clock is high, and 1 for a data byte.  The object is not changed. *)
Theorem send_byte_encoding (rs : BOOL) (n : BYTE) (m : Machine) :
  is_byte n ->
  lcd8574_send_byte rs n m
  = (tt, emit [EvWrite (fd (self m)) (16 * (n / 16) + 12 + bit rs);
               EvUsleep 1000;
               EvWrite (fd (self m)) (16 * (n / 16) + 8 + bit rs);
               EvUsleep 1000;
               EvWrite (fd (self m)) (16 * (n mod 16) + 12 + bit rs);
               EvUsleep 1000;
               EvWrite (fd (self m)) (16 * (n mod 16) + 8 + bit rs);
               EvUsleep 1000] m).
Proof.
  intros H. rewrite send_byte_run, octet_arith by exact H. reflexivity.
Qed.

Lemma send_byte_encoding_witness :
  lcd8574_send_byte TRUE 0x41 (boot 39 2 16)
  = (tt, emit [EvWrite (-1) 0x4D; EvUsleep 1000; EvWrite (-1) 0x49;
               EvUsleep 1000; EvWrite (-1) 0x1D; EvUsleep 1000;
               EvWrite (-1) 0x19; EvUsleep 1000] (boot 39 2 16)).
Proof.
  apply (send_byte_encoding TRUE 0x41 (boot 39 2 16)). unfold is_byte. lia.
Defined.

(** X4: nothing is lost on the wire: two calls of [lcd8574_send_byte] that
    leave the same log sent the same byte to the same register. *)
Theorem send_byte_injective (rs rs' : BOOL) (n n' : BYTE) (m : Machine) :
  is_byte n -> is_byte n' ->
  lcd8574_send_byte rs n m = lcd8574_send_byte rs' n' m ->
  rs = rs' /\ n = n'.
Proof.
  intros Hn Hn' H.
  rewrite !send_byte_encoding in H by assumption.
  apply (f_equal snd) in H. cbv beta iota delta [snd] in H.
  apply emit_inj in H.
  assert (H1 : 16 * (n / 16) + 12 + bit rs = 16 * (n' / 16) + 12 + bit rs')
    by congruence.
  assert (H3 : 16 * (n mod 16) + 12 + bit rs
               = 16 * (n' mod 16) + 12 + bit rs') by congruence.
  clear H.
  assert (Hrs : rs = rs')
    by (destruct rs, rs'; cbn [bit] in *; try reflexivity; exfalso; lia).
  subst rs'. split; [reflexivity|].
  rewrite (Z.div_mod n 16), (Z.div_mod n' 16) by lia. lia.
Qed.

Lemma send_byte_injective_witness :
  lcd8574_send_byte TRUE 0x41 (boot 39 2 16)
  = lcd8574_send_byte TRUE (0x40 + 1) (boot 39 2 16)
  /\ (TRUE = TRUE /\ 0x41 = 0x40 + 1).
Proof.
  split; [reflexivity|].
  apply (send_byte_injective TRUE TRUE 0x41 (0x40 + 1) (boot 39 2 16));
    [unfold is_byte; lia | unfold is_byte; lia | reflexivity].
Defined.

(* ===================================================================== *)
(** ** What the write operations have in common *)

Lemma byte_stream_app f bs1 bs2 :
  byte_stream f (bs1 ++ bs2) = byte_stream f bs1 ++ byte_stream f bs2.
Proof. apply flat_map_app. Qed.

Lemma streams_ret : streams (ret tt).
Proof. intros m. exists []. cbn [byte_stream flat_map]. now rewrite emit_nil. Qed.

Lemma streams_bind c k : streams c -> streams k -> streams (c ;; k).
Proof.
  intros Hc Hk m. destruct (Hc m) as [b1 E1].
  destruct (Hk (emit (byte_stream (fd (self m)) b1) m)) as [b2 E2].
  exists (b1 ++ b2). unfold bind. rewrite E1, E2, emit_emit, self_emit.
  now rewrite byte_stream_app.
Qed.

Lemma streams_send_byte rs n : streams (lcd8574_send_byte rs n).
Proof.
  intros m. exists [(rs, n)]. rewrite send_byte_run.
  cbn [byte_stream flat_map fst snd]. now rewrite app_nil_r.
Qed.

Lemma streams_loop s : forall row col wrap,
  streams (write_string_loop row col s wrap).
Proof.
  induction s as [|c s IH]; intros row col wrap; [apply streams_ret|].
  intros m. cbn [write_string_loop]. unfold bind at 1 2, get_rows, get_cols.
  destruct (negb (c =? 0) && (row <? rows (self m)) && (col <? cols (self m)));
    [|apply streams_ret].
  destruct ((cols (self m) <=? to_int (col + 1)) && wrap).
  - apply streams_bind; [apply streams_send_byte|].
    apply streams_bind; [apply streams_send_byte|apply IH].
  - apply streams_bind; [apply streams_send_byte|apply IH].
Qed.

Lemma streams_write_string_at row col s wrap :
  streams (lcd8574_write_string_at row col s wrap).
Proof.
  intros m. unfold lcd8574_write_string_at, bind at 1 2, get_rows, get_cols.
  destruct ((row <? rows (self m)) && (col <? cols (self m)));
    [|apply streams_ret].
  apply streams_bind; [apply streams_send_byte|apply streams_loop].
Qed.

Lemma streams_write_char_at row col c :
  streams (lcd8574_write_char_at row col c).
Proof.
  intros m. unfold lcd8574_write_char_at, bind at 1 2, get_rows, get_cols.
  destruct ((row <? rows (self m)) && (col <? cols (self m)));
    [|apply streams_ret].
  apply streams_bind; apply streams_send_byte.
Qed.

Lemma streams_call c : is_write_call c = true -> streams (call c).
Proof.
  destruct c as [e| | |row col b|row col s wrap| |mode|row col];
    intros H; try discriminate H; cbn [call].
  - apply streams_write_char_at.
  - apply streams_write_string_at.
  - unfold lcd8574_clear. apply streams_send_byte.
  - unfold lcd8574_set_mode. apply streams_send_byte.
  - unfold lcd8574_set_cursor. apply streams_write_string_at.
Qed.

Lemma pack8_line3 p7 p6 p5 p4 p3 p2 p1 p0 :
  Z.testbit (pack8 p7 p6 p5 p4 p3 p2 p1 p0) 3 = p3.
Proof. destruct p7, p6, p5, p4, p3, p2, p1, p0; reflexivity. Qed.

Lemma pack8_line1 p7 p6 p5 p4 p3 p2 p1 p0 :
  Z.testbit (pack8 p7 p6 p5 p4 p3 p2 p1 p0) 1 = p1.
Proof. destruct p7, p6, p5, p4, p3, p2, p1, p0; reflexivity. Qed.

Lemma on_wire_strobe f rs n : forallb (on_wire f) (strobe f rs n) = true.
Proof.
  unfold strobe. cbn [forallb on_wire]. rewrite !line_byte_wired.
  unfold wired_byte. rewrite !pack8_line3, !pack8_line1, Z.eqb_refl.
  reflexivity.
Qed.

Lemma on_wire_stream f bs : forallb (on_wire f) (byte_stream f bs) = true.
Proof.
  induction bs as [|[rs n] bs IH]; [reflexivity|].
  cbn [byte_stream flat_map fst snd]. unfold octet.
  rewrite !forallb_app, !on_wire_strobe. exact IH.
Qed.

Lemma total_usleep_app l1 l2 :
  total_usleep (l1 ++ l2) = total_usleep l1 + total_usleep l2.
Proof.
  induction l1 as [|e l1 IH]; [reflexivity|].
  cbn [app total_usleep fold_right]. fold (total_usleep (l1 ++ l2)).
  fold (total_usleep l1). rewrite IH. destruct e; lia.
Qed.

Lemma total_usleep_octet f rs n : total_usleep (octet f rs n) = 4000.
Proof. reflexivity. Qed.

Lemma measures_stream f bs :
  count_writes (byte_stream f bs) = (4 * List.length bs)%nat
  /\ total_usleep (byte_stream f bs) = 4000 * Z.of_nat (List.length bs).
Proof.
  induction bs as [|[rs n] bs [IHw IHu]]; [split; reflexivity|].
  cbn [byte_stream flat_map fst snd List.length].
  fold (byte_stream f bs).
  rewrite count_writes_app, count_writes_octet, total_usleep_app,
    total_usleep_octet, IHw, IHu.
  split; lia.
Qed.

(** X5: every operation that writes to the display ([write_char_at],
    [write_string_at], [clear], [set_mode], [set_cursor]), with any
    arguments and in any state, leaves the object as it was and logs a
    sequence of whole bytes on the descriptor of the object: no other call
    is made and no other descriptor is used. *)
Theorem write_calls_stream (c : Call) (m : Machine) :
  is_write_call c = true ->
  exists bs : list (BOOL * BYTE),
    call c m = (tt, emit (byte_stream (fd (self m)) bs) m)
    /\ self (exec (call c) m) = self m
    /\ count_writes (byte_stream (fd (self m)) bs) = (4 * List.length bs)%nat.
Proof.
  intros H. destruct (streams_call c H m) as [bs E].
  exists bs. split; [exact E|]. split.
  - unfold exec. now rewrite E.
  - apply measures_stream.
Qed.

Lemma write_calls_stream_witness :
  exists bs : list (BOOL * BYTE),
    call (CallWriteCharAt 1 3 0x41) (boot 39 2 16)
    = (tt, emit (byte_stream (-1) bs) (boot 39 2 16))
    /\ self (exec (call (CallWriteCharAt 1 3 0x41)) (boot 39 2 16))
       = lcd8574_create 39 2 16.
Proof.
  destruct (write_calls_stream (CallWriteCharAt 1 3 0x41) (boot 39 2 16))
    as [bs [E [Hs _]]]; [reflexivity|].
  exists bs. split; [exact E | exact Hs].
Defined.

(** X6: what such an operation adds to the log is made of writes to the
    descriptor of the object, each of a byte with the backlight line set
    and the RW line clear, and of delays of one millisecond; the writes
    come in fours and the time slept is one millisecond per write. *)
Theorem write_calls_on_wire (c : Call) (m : Machine) :
  is_write_call c = true ->
  exists l : list Event,
    trace (exec (call c) m) = trace m ++ l
    /\ forallb (on_wire (fd (self m))) l = true
    /\ Nat.divide 4 (count_writes l)
    /\ total_usleep l = 1000 * Z.of_nat (count_writes l).
Proof.
  intros H. destruct (streams_call c H m) as [bs E].
  exists (byte_stream (fd (self m)) bs).
  destruct (measures_stream (fd (self m)) bs) as [Hw Hu].
  split; [unfold exec; now rewrite E|]. split; [apply on_wire_stream|].
  split.
  - exists (List.length bs). rewrite Hw. lia.
  - rewrite Hw, Hu. lia.
Qed.

Lemma write_calls_on_wire_witness :
  exists l : list Event,
    trace (exec (call (CallWriteStringAt 0 14 [72; 105; 33] TRUE))
                (boot 39 2 16)) = l
    /\ forallb (on_wire (-1)) l = true
    /\ total_usleep l = 1000 * Z.of_nat (count_writes l).
Proof.
  destruct (write_calls_on_wire (CallWriteStringAt 0 14 [72; 105; 33] TRUE)
                                (boot 39 2 16))
    as [l [E [Hw [_ Hu]]]]; [reflexivity|].
  exists l. split; [rewrite E; reflexivity|]. split; assumption.
Defined.

(* ===================================================================== *)
(** ** More on characters and strings *)

Lemma no_nul_firstn n s : no_nul s -> no_nul (firstn n s).
Proof.
  intros H. unfold no_nul in *. rewrite <- (firstn_skipn n s) in H.
  apply Forall_app in H. apply H.
Qed.

(** X7: inside the display, [write_char_at] sends the address and then
    the character as a data byte, whatever the character: also a NUL.
    [write_string_at] with [wrap] clear and a string of that one character
    does the same unless the character is NUL, in which case it sends the
    address only. *)
Theorem write_char_at_as_string (row col : Z) (c : BYTE) (m : Machine) :
  row < rows (self m) -> 0 <= col < cols (self m) ->
  is_int (cols (self m)) ->
  lcd8574_write_char_at row col c m
  = (tt, emit (set_addr (fd (self m)) row col ++ octet (fd (self m)) TRUE c) m)
  /\ (c <> 0 ->
      lcd8574_write_string_at row col [c] FALSE m
      = lcd8574_write_char_at row col c m)
  /\ (c = 0 ->
      lcd8574_write_string_at row col [c] FALSE m
      = (tt, emit (set_addr (fd (self m)) row col) m)).
Proof.
  intros Hr Hc Hk.
  assert (E : lcd8574_write_char_at row col c m
              = (tt, emit (set_addr (fd (self m)) row col
                           ++ octet (fd (self m)) TRUE c) m)).
  { unfold lcd8574_write_char_at, bind at 1 2, get_rows, get_cols.
    replace (row <? rows (self m)) with true by (symmetry; now apply Z.ltb_lt).
    replace (col <? cols (self m)) with true
      by (symmetry; apply Z.ltb_lt; lia).
    cbn [andb]. unfold bind. rewrite !send_byte_run, emit_emit, ?self_emit.
    reflexivity. }
  split; [exact E|]. split.
  - intros Hc0. rewrite E, write_string_at_run by lia.
    change [c] with ([c] ++ []).
    assert (Hn : no_nul [c]) by (repeat constructor; exact Hc0).
    rewrite write_string_loop_row by side.
    rewrite write_string_loop_nil, emit_emit, ?self_emit.
    cbn [chars flat_map]. now rewrite app_nil_r.
  - intros ->. rewrite write_string_at_run by lia.
    cbn [write_string_loop]. unfold bind, get_rows, get_cols.
    cbn [Z.eqb negb andb]. reflexivity.
Qed.

Lemma write_char_at_as_string_witness :
  lcd8574_write_string_at 1 15 [0x41] FALSE (boot 39 2 16)
  = lcd8574_write_char_at 1 15 0x41 (boot 39 2 16)
  /\ count_writes (trace (exec (lcd8574_write_char_at 0 0 0) (boot 39 2 16)))
     = 8%nat.
Proof.
  split; [|reflexivity].
  apply (write_char_at_as_string 1 15 0x41 (boot 39 2 16));
    [simpl; lia | simpl; lia | unfold is_int, INT_MIN, INT_MAX; simpl; lia
    | discriminate].
Defined.

(** X8: with [wrap] clear, [write_string_at] inside the display sends the
    address and then the characters that fit between [col] and the end of
    the row; the rest of the string is dropped. *)
Theorem write_string_at_truncates
  (row col : Z) (s : list BYTE) (m : Machine) :
  row < rows (self m) -> 0 <= col < cols (self m) ->
  is_int (cols (self m)) -> no_nul s ->
  lcd8574_write_string_at row col s FALSE m
  = (tt, emit (set_addr (fd (self m)) row col
               ++ chars (fd (self m))
                    (firstn (Z.to_nat (cols (self m) - col)) s)) m).
Proof.
  intros Hr Hc Hk Hs.
  rewrite write_string_at_run by lia.
  set (k := Z.to_nat (cols (self m) - col)).
  destruct (Nat.le_gt_cases (List.length s) k) as [Hshort|Hlong].
  - rewrite (firstn_all2 s Hshort).
    rewrite <- (app_nil_r s) at 1.
    rewrite write_string_loop_row by (subst k; side).
    rewrite write_string_loop_nil, emit_emit, ?self_emit. reflexivity.
  - rewrite <- (firstn_skipn k s) at 1.
    assert (Hlen : List.length (firstn k s) = k)
      by (apply firstn_length_le; lia).
    assert (Hn : no_nul (firstn k s)) by now apply no_nul_firstn.
    rewrite write_string_loop_row;
      rewrite ?self_emit, ?Hlen; subst k;
      first [assumption | lia | now left | idtac].
    rewrite write_string_loop_off by (rewrite !self_emit; lia).
    now rewrite emit_emit, ?self_emit.
Qed.

Lemma write_string_at_truncates_witness :
  lcd8574_write_string_at 0 13 [72; 101; 108; 108; 111] FALSE (boot 39 2 16)
  = (tt, emit (set_addr (-1) 0 13 ++ chars (-1) [72; 101; 108])
              (boot 39 2 16)).
Proof.
  apply (write_string_at_truncates 0 13 [72; 101; 108; 108; 111]
                                   (boot 39 2 16));
    [simpl; lia | simpl; lia | unfold is_int, INT_MIN, INT_MAX; simpl; lia
    | repeat constructor; discriminate].
Defined.

Lemma write_string_loop_nul s : forall rest row col wrap m,
  write_string_loop row col (s ++ 0 :: rest) wrap m
  = write_string_loop row col s wrap m.
Proof.
  induction s as [|c s IH]; intros rest row col wrap m.
  - reflexivity.
  - cbn [app write_string_loop]. unfold bind at 1 2 5 6, get_rows, get_cols.
    destruct (negb (c =? 0) && (row <? rows (self m))
              && (col <? cols (self m))); [|reflexivity].
    unfold bind at 1 3. destruct (lcd8574_send_byte TRUE c m) as [u m1].
    destruct ((cols (self m) <=? to_int (col + 1)) && wrap).
    + unfold bind at 1 2.
      destruct (lcd8574_send_byte FALSE _ m1) as [u2 m2]. apply IH.
    + apply IH.
Qed.

(** X9: the string ends at its first NUL: whatever is stored after it is
    never sent, in any state and for any position and [wrap]. *)
Theorem write_string_at_stops_at_nul
  (row col : Z) (s rest : list BYTE) (wrap : BOOL) (m : Machine) :
  lcd8574_write_string_at row col (s ++ 0 :: rest) wrap m
  = lcd8574_write_string_at row col s wrap m.
Proof.
  unfold lcd8574_write_string_at, bind at 1 2 4 5, get_rows, get_cols.
  destruct ((row <? rows (self m)) && (col <? cols (self m)));
    [|reflexivity].
  unfold bind. destruct (lcd8574_send_byte FALSE _ m) as [u m1].
  apply write_string_loop_nul.
Qed.

(** X10: [wrap] only matters at the end of a row: for a string that ends
    before the last cell of its row is filled, the log is the same with
    [wrap] set and clear, the address followed by all the characters. *)
Theorem wrap_irrelevant_inside_row
  (row col : Z) (s : list BYTE) (wrap : BOOL) (m : Machine) :
  row < rows (self m) -> 0 <= col ->
  is_int (cols (self m)) -> no_nul s ->
  col + Z.of_nat (List.length s) < cols (self m) ->
  lcd8574_write_string_at row col s wrap m
  = (tt, emit (set_addr (fd (self m)) row col ++ chars (fd (self m)) s) m).
Proof.
  intros Hr Hc Hk Hs Hfit.
  rewrite write_string_at_run by lia.
  rewrite <- (app_nil_r s) at 1.
  rewrite write_string_loop_row by side.
  rewrite write_string_loop_nil, emit_emit, ?self_emit. reflexivity.
Qed.

Lemma wrap_irrelevant_inside_row_witness :
  lcd8574_write_string_at 0 3 [72; 105] TRUE (boot 39 2 16)
  = (tt, emit (set_addr (-1) 0 3 ++ chars (-1) [72; 105]) (boot 39 2 16)).
Proof.
  apply (wrap_irrelevant_inside_row 0 3 [72; 105] TRUE (boot 39 2 16));
    [simpl; lia | lia | unfold is_int, INT_MIN, INT_MAX; simpl; lia
    | repeat constructor; discriminate | simpl; lia].
Defined.

Lemma write_string_loop_rows chunks : forall rest row m,
  is_int (rows (self m)) -> is_int (cols (self m)) -> is_int row ->
  1 <= cols (self m) ->
  Forall (fun ch => no_nul ch /\ Z.of_nat (List.length ch) = cols (self m))
         chunks ->
  row + Z.of_nat (List.length chunks) = rows (self m) ->
  write_string_loop row 0 (List.concat chunks ++ rest) TRUE m
  = (tt, emit (wrapped (fd (self m)) row chunks) m).
Proof.
  induction chunks as [|ch chunks IH]; intros rest row m Hir Hik Hrow Hk Hch Hn.
  - cbn [List.concat app wrapped List.length] in *.
    rewrite write_string_loop_off by lia. now rewrite emit_nil.
  - inversion Hch as [|? ? [Hnn Hlen] Hrest]; subst.
    cbn [List.length] in Hn. rewrite Nat2Z.inj_succ in Hn.
    cbn [List.concat wrapped]. rewrite <- app_assoc.
    assert (Hne : ch <> [])
      by (intros ->; cbn [List.length] in Hlen; lia).
    rewrite write_string_loop_fill by side.
    rewrite IH; rewrite ?self_emit; try assumption;
      try (unfold is_int, INT_MIN, INT_MAX in *; lia).
    rewrite emit_emit, <- !app_assoc. reflexivity.
Qed.

(** X11: the display does not scroll.  A string written with [wrap] set
    from the start of a row, long enough to fill that row and every row
    below it, is sent row by row, each row followed by the address of the
    next; after the last row nothing more of the string is sent. *)
Theorem write_string_at_no_scroll
  (row : Z) (chunks : list (list BYTE)) (rest : list BYTE) (m : Machine) :
  is_int (rows (self m)) -> is_int (cols (self m)) -> is_int row ->
  1 <= cols (self m) ->
  chunks <> [] ->
  Forall (fun ch => no_nul ch /\ Z.of_nat (List.length ch) = cols (self m))
         chunks ->
  row + Z.of_nat (List.length chunks) = rows (self m) ->
  lcd8574_write_string_at row 0 (List.concat chunks ++ rest) TRUE m
  = (tt, emit (set_addr (fd (self m)) row 0
               ++ wrapped (fd (self m)) row chunks) m).
Proof.
  intros Hir Hik Hrow Hk Hne Hch Hn.
  assert (0 < Z.of_nat (List.length chunks))
    by (destruct chunks; [contradiction|cbn [List.length]; lia]).
  rewrite write_string_at_run by lia.
  rewrite write_string_loop_rows; rewrite ?self_emit; try assumption.
  now rewrite emit_emit.
Qed.

Lemma write_string_at_no_scroll_witness :
  lcd8574_write_string_at 0 0 (List.concat [[65; 66]; [67; 68]] ++ [69; 70]) TRUE
                          (boot 39 2 2)
  = (tt, emit (set_addr (-1) 0 0 ++ chars (-1) [65; 66]
               ++ set_addr (-1) 1 0 ++ chars (-1) [67; 68]
               ++ set_addr (-1) 2 0) (boot 39 2 2)).
Proof.
  assert (Hi : is_int 2) by (unfold is_int, INT_MIN, INT_MAX; lia).
  assert (Hz : is_int 0) by (unfold is_int, INT_MIN, INT_MAX; lia).
  assert (Hc : Forall (fun ch => no_nul ch
                                 /\ Z.of_nat (List.length ch) = 2)
                      [[65; 66]; [67; 68]])
    by (repeat constructor; discriminate).
  apply (write_string_at_no_scroll 0 [[65; 66]; [67; 68]] [69; 70]
                                   (boot 39 2 2));
    [exact Hi | exact Hi | exact Hz | simpl; lia | discriminate | exact Hc
    | reflexivity].
Defined.

(* ===================================================================== *)
(** ** Addresses *)

Lemma lor_128_small x : 0 <= x < 128 -> Z.lor 128 x = 128 + x.
Proof.
  intros H. rewrite <- (Z.add_lor_land 128 x).
  replace (Z.land 128 x) with 0; [lia|].
  symmetry. apply Z.bits_inj'. intros j Hj.
  rewrite Z.land_spec, Z.bits_0.
  destruct (Z.eq_dec j 7) as [->|Hne].
  - replace (Z.testbit x 7) with false; [reflexivity|].
    symmetry. rewrite <- (Z.mod_small x (2 ^ 7))
      by (change (2 ^ 7) with 128; lia).
    apply Z.mod_pow2_bits_high. lia.
  - change 128 with (2 ^ 7). rewrite Z.pow2_bits_false by lia. reflexivity.
Qed.

Lemma lor_128_alias x :
  Z.lor 128 ((x + 128) mod 256) = Z.lor 128 (x mod 256).
Proof.
  apply Z.bits_inj'. intros j Hj. rewrite !Z.lor_spec.
  destruct (Z.eq_dec j 7) as [->|Hne]; [reflexivity|].
  f_equal. change 256 with (2 ^ 8).
  destruct (Z.ltb_spec j 8) as [Hlow|Hhigh].
  - rewrite !Z.mod_pow2_bits_low by lia.
    rewrite <- (Z.mod_pow2_bits_low (x + 128) 7 j) by lia.
    rewrite <- (Z.mod_pow2_bits_low x 7 j) by lia.
    f_equal. change (2 ^ 7) with 128.
    rewrite <- (Z.mul_1_l 128) at 1. apply Z.mod_add. lia.
  - rewrite !Z.mod_pow2_bits_high by lia. reflexivity.
Qed.

Lemma write_char_at_run row col c m :
  row < rows (self m) -> col < cols (self m) ->
  lcd8574_write_char_at row col c m
  = (tt, emit (set_addr (fd (self m)) row col ++ octet (fd (self m)) TRUE c) m).
Proof.
  intros Hr Hc.
  unfold lcd8574_write_char_at, bind at 1 2, get_rows, get_cols.
  replace (row <? rows (self m)) with true by (symmetry; now apply Z.ltb_lt).
  replace (col <? cols (self m)) with true by (symmetry; now apply Z.ltb_lt).
  cbn [andb]. unfold bind. rewrite !send_byte_run, emit_emit, ?self_emit.
  reflexivity.
Qed.

(** X12: for the two rows and the 64 columns the controller has, the
    set-address command that [write_char_at] sends before the character
    is the byte 0x80 + 64 * row + col, so different cells get different
    commands. *)
Theorem set_addr_in_range (row col : Z) (c : BYTE) (m : Machine) :
  0 <= row < 2 -> 0 <= col < LCD_CHARS_PER_ROW ->
  row < rows (self m) -> col < cols (self m) ->
  lcd8574_write_char_at row col c m
  = (tt, emit (octet (fd (self m)) FALSE (128 + 64 * row + col)
               ++ octet (fd (self m)) TRUE c) m)
  /\ is_byte (128 + 64 * row + col).
Proof.
  unfold LCD_CHARS_PER_ROW. intros Hr Hc Hrow Hcol. split.
  - rewrite write_char_at_run by assumption.
    unfold set_addr. rewrite set_addr_byte.
    rewrite Z.mod_small by lia. rewrite lor_128_small by lia.
    replace (128 + (row * 64 + col)) with (128 + 64 * row + col) by lia.
    reflexivity.
  - unfold is_byte. lia.
Qed.

Lemma set_addr_in_range_witness :
  lcd8574_write_char_at 1 15 0x41 (boot 39 2 16)
  = (tt, emit (octet (-1) FALSE 0xCF ++ octet (-1) TRUE 0x41) (boot 39 2 16)).
Proof.
  apply (set_addr_in_range 1 15 0x41 (boot 39 2 16));
    unfold LCD_CHARS_PER_ROW; simpl; lia.
Defined.

(** X13: the row number only counts modulo 2 in the command: rows [row]
    and [row + 2] get the same set-address command, so on a display
    declared with more than two rows [write_char_at] logs for row
    [row + 2] exactly what it logs for row [row]. *)
Theorem row_plus_two_aliases
  (row col : Z) (c : BYTE) (m : Machine) :
  row + 2 < rows (self m) -> col < cols (self m) ->
  set_addr (fd (self m)) (row + 2) col = set_addr (fd (self m)) row col
  /\ lcd8574_write_char_at (row + 2) col c m
     = lcd8574_write_char_at row col c m.
Proof.
  intros Hr Hc.
  assert (Eb : to_BYTE (Z.lor CMD_SET_DDRAM_ADDR (ddram_addr (row + 2) col))
               = to_BYTE (Z.lor CMD_SET_DDRAM_ADDR (ddram_addr row col))).
  { rewrite !set_addr_byte.
    replace ((row + 2) * 64 + col) with (row * 64 + col + 128) by lia.
    apply lor_128_alias. }
  split.
  - unfold set_addr. rewrite Eb. reflexivity.
  - rewrite !write_char_at_run by lia.
    unfold set_addr. rewrite Eb. reflexivity.
Qed.

Lemma row_plus_two_aliases_witness :
  lcd8574_write_char_at 2 5 0x41 (boot 39 4 20)
  = lcd8574_write_char_at 0 5 0x41 (boot 39 4 20).
Proof.
  apply (row_plus_two_aliases 0 5 0x41 (boot 39 4 20)); simpl; lia.
Defined.

(* ===================================================================== *)
(** ** More on initialisation and teardown *)

Lemma count_close_app g l1 l2 :
  count_close g (l1 ++ l2) = (count_close g l1 + count_close g l2)%nat.
Proof. unfold count_close. now rewrite filter_app, length_app. Qed.

Lemma count_close_strobe g f rs n : count_close g (strobe f rs n) = 0%nat.
Proof. reflexivity. Qed.

Lemma count_close_octet g f rs n : count_close g (octet f rs n) = 0%nat.
Proof.
  unfold octet. now rewrite count_close_app, !count_close_strobe.
Qed.

(** X14: when [open] fails, [lcd8574_init] returns [FALSE] with the
    message "Can't open I2C device: " followed by the text of the error;
    [open] is the only call it makes.  The negative value goes into [fd]
    and [ready] keeps the value it had. *)
Theorem init_open_failure (e : Env) (m : Machine) :
  env_open e < 0 ->
  lcd8574_init e m
  = ((FALSE, Some ("Can't open I2C device: " ++ env_strerror e)%string),
     mkMachine (with_fd (env_open e) (self m))
               (trace m ++ [EvOpen I2C_DEV O_WRONLY (env_open e)]))
  /\ fd (self (exec (lcd8574_init e) m)) < 0
  /\ ready (self (exec (lcd8574_init e) m)) = ready (self m).
Proof.
  intros H. unfold exec. rewrite init_run_open_fails by exact H.
  repeat split. exact H.
Qed.

Lemma init_open_failure_witness :
  lcd8574_init (mkEnv (-1) 0 "No such file or directory") (boot 39 2 16)
  = ((FALSE, Some "Can't open I2C device: No such file or directory"%string),
     mkMachine (lcd8574_create 39 2 16) [EvOpen I2C_DEV O_WRONLY (-1)]).
Proof.
  apply (init_open_failure (mkEnv (-1) 0 "No such file or directory")
                           (boot 39 2 16)).
  simpl. lia.
Defined.

(** X15: [lcd8574_init] never calls [close], whatever [open] and [ioctl]
    answer: a descriptor the object held before the call is overwritten,
    not released. *)
Theorem init_never_closes (e : Env) (m : Machine) (g : Z) :
  count_close g (trace (exec (lcd8574_init e) m)) = count_close g (trace m)
  /\ fd (self (exec (lcd8574_init e) m)) = env_open e.
Proof.
  unfold exec.
  destruct (Z.leb_spec 0 (env_open e)) as [Ho|Ho].
  - destruct (Z.leb_spec 0 (env_ioctl e)) as [Hi|Hi].
    + rewrite init_run_ok by assumption. cbn [snd trace self fd with_ready
                                               with_fd].
      split; [|reflexivity].
      rewrite !count_close_app, !count_close_strobe, !count_close_octet.
      cbn. lia.
    + rewrite init_run_bind_fails by assumption. cbn [snd trace self fd
                                                      with_fd].
      split; [|reflexivity]. rewrite count_close_app. cbn. lia.
  - rewrite init_run_open_fails by assumption. cbn [snd trace self fd with_fd].
    split; [|reflexivity]. rewrite count_close_app. cbn. lia.
Qed.

(** X16: once [open] has given a descriptor, [lcd8574_uninit] right after
    [lcd8574_init] closes that descriptor, whether the [ioctl] succeeded
    or not: the [close] and the store of [FALSE] to [ready] end the log,
    and no other [close] is made. *)
Theorem init_then_uninit_closes_once (e : Env) (m : Machine) :
  0 <= env_open e ->
  exists l : list Event,
    trace (exec (lcd8574_init e ;; lcd8574_uninit) m)
    = trace m ++ l ++ [EvClose (env_open e); EvReady FALSE]
    /\ (forall g, count_close g l = 0%nat)
    /\ ready (self (exec (lcd8574_init e ;; lcd8574_uninit) m)) = FALSE.
Proof.
  intros Ho. unfold exec, bind.
  destruct (lcd8574_init e m) as [r m1] eqn:E.
  pose proof (init_never_closes e m) as Hc. unfold exec in Hc.
  rewrite E in Hc. cbn [snd] in Hc.
  assert (Hfd : fd (self m1) = env_open e) by apply (Hc 0).
  assert (Ht : exists l, trace m1 = trace m ++ l).
  { destruct (Z.leb_spec 0 (env_ioctl e)) as [Hi|Hi].
    - rewrite init_run_ok in E by assumption.
      injection E as _ <-. cbn [trace]. eexists. reflexivity.
    - rewrite init_run_bind_fails in E by assumption.
      injection E as _ <-. cbn [trace]. eexists. reflexivity. }
  destruct Ht as [l Hl]. exists l.
  rewrite uninit_run. cbn [snd trace self ready with_ready].
  rewrite Hfd, Hl.
  replace (0 <=? env_open e) with true by (symmetry; now apply Z.leb_le).
  split; [now rewrite <- !app_assoc|]. split; [|reflexivity].
  intros g. specialize (Hc g). destruct Hc as [Hc _].
  rewrite Hl, count_close_app in Hc. lia.
Qed.

Lemma init_then_uninit_closes_once_witness :
  trace (exec (lcd8574_init (mkEnv 3 (-1) "Remote I/O error")
               ;; lcd8574_uninit) (boot 39 2 16))
  = [EvOpen I2C_DEV O_WRONLY 3; EvIoctl 3 I2C_SLAVE 39 (-1);
     EvClose 3; EvReady FALSE].
Proof.
  destruct (init_then_uninit_closes_once
              (mkEnv 3 (-1) "Remote I/O error") (boot 39 2 16))
    as [l [E _]]; [simpl; lia|].
  reflexivity.
Defined.

(** X17: a successful [lcd8574_init] makes 21 writes and asks for 195
    milliseconds of delay in all; the bytes it writes are always the same,
    whatever the bus address, the size of the display and the descriptor. *)
Theorem init_handshake_measures (e : Env) (m : Machine) :
  0 <= env_open e -> 0 <= env_ioctl e ->
  exists l : list Event,
    trace (exec (lcd8574_init e) m) = trace m ++ l
    /\ count_writes l = 21%nat
    /\ total_usleep l = 195000
    /\ written l
       = [0x00;  0x3C; 0x38;  0x3C; 0x38;  0x3C; 0x38;  0x2C; 0x28;
          0x2C; 0x28; 0x8C; 0x88;  0x0C; 0x08; 0x1C; 0x18;
          0x0C; 0x08; 0xCC; 0xC8].
Proof.
  intros Ho Hi. unfold exec. rewrite init_run_ok by assumption.
  cbn [snd trace]. eexists. split; [reflexivity|].
  split; [reflexivity|]. split; reflexivity.
Qed.

Lemma init_handshake_measures_witness :
  exists l : list Event,
    trace (exec (lcd8574_init (mkEnv 5 0 "")) (boot 0x3F 4 20)) = l
    /\ count_writes l = 21%nat /\ total_usleep l = 195000.
Proof.
  destruct (init_handshake_measures (mkEnv 5 0 "") (boot 0x3F 4 20))
    as [l [E [Hw [Hu _]]]]; [simpl; lia | simpl; lia |].
  exists l. split; [rewrite E; reflexivity|]. split; assumption.
Defined.

(** X18: [lcd8574_destroy] is teardown followed by [free]: on an object
    that holds a descriptor it closes it, stores [FALSE] to [ready] and
    frees the object, in this order; on an object without descriptor it
    makes no [close].  Called after [lcd8574_uninit], as [main] does, it
    closes the descriptor that [lcd8574_uninit] has closed already. *)
Theorem destroy_after_uninit (m : Machine) :
  0 <= fd (self m) ->
  trace (exec lcd8574_destroy m)
  = trace m ++ [EvClose (fd (self m)); EvReady FALSE; EvFree]
  /\ trace (exec (lcd8574_uninit ;; lcd8574_destroy) m)
     = trace m ++ [EvClose (fd (self m)); EvReady FALSE;
                   EvClose (fd (self m)); EvReady FALSE; EvFree].
Proof.
  intros H.
  assert (Hb : (0 <=? fd (self m)) = true) by now apply Z.leb_le.
  split.
  - unfold exec. rewrite destroy_run, Hb. reflexivity.
  - unfold exec, bind. rewrite uninit_run, destroy_run.
    cbn [snd trace self fd with_ready]. rewrite Hb.
    rewrite <- !app_assoc. reflexivity.
Qed.

Lemma destroy_after_uninit_witness :
  trace (exec lcd8574_destroy (mkMachine (mkLCD8574 39 3 2 16 TRUE) []))
  = [EvClose 3; EvReady FALSE; EvFree].
Proof.
  apply (destroy_after_uninit (mkMachine (mkLCD8574 39 3 2 16 TRUE) [])).
  simpl. lia.
Defined.

(** X19: [lcd8574_clear] sends the command byte 0x01 and nothing else:
    four writes, 0x0C 0x08 0x1C 0x18, on the descriptor of the object, in
    any state and without change to the object. *)
Theorem clear_wire (m : Machine) :
  lcd8574_clear m
  = (tt, emit [EvWrite (fd (self m)) 0x0C; EvUsleep 1000;
               EvWrite (fd (self m)) 0x08; EvUsleep 1000;
               EvWrite (fd (self m)) 0x1C; EvUsleep 1000;
               EvWrite (fd (self m)) 0x18; EvUsleep 1000] m).
Proof.
  unfold lcd8574_clear. rewrite send_byte_encoding
    by (unfold is_byte, CMD_CLEAR; lia).
  reflexivity.
Qed.

Lemma lor_8_small x : 0 <= x < 8 -> Z.lor 8 x = 8 + x.
Proof.
  intros H.
  assert (Hc : x = 0 \/ x = 1 \/ x = 2 \/ x = 3 \/ x = 4 \/ x = 5 \/ x = 6
               \/ x = 7) by lia.
  repeat (destruct Hc as [-> | Hc]); try subst x; reflexivity.
Qed.

(** X20: for any combination of the three mode flags, [lcd8574_set_mode]
    sends the one command byte 0x08 + mode: a zero high nibble, then the
    nibble 8 + mode.  Nothing of an earlier mode is kept: the byte depends
    on the argument only. *)
Theorem set_mode_wire (mode : BYTE) (m : Machine) :
  0 <= mode < 8 ->
  lcd8574_set_mode mode m
  = (tt, emit [EvWrite (fd (self m)) 0x0C; EvUsleep 1000;
               EvWrite (fd (self m)) 0x08; EvUsleep 1000;
               EvWrite (fd (self m)) (16 * (8 + mode) + 12); EvUsleep 1000;
               EvWrite (fd (self m)) (16 * (8 + mode) + 8); EvUsleep 1000] m).
Proof.
  intros H. unfold lcd8574_set_mode, CMD_CTRL.
  rewrite lor_8_small by exact H.
  unfold to_BYTE. rewrite (Z.mod_small (8 + mode) 256) by lia.
  rewrite send_byte_encoding by (unfold is_byte; lia).
  replace ((8 + mode) / 16) with 0
    by (symmetry; apply Z.div_small; lia).
  rewrite (Z.mod_small (8 + mode) 16) by lia.
  unfold FALSE. cbn [bit]. rewrite !Z.add_0_r. reflexivity.
Qed.

Lemma set_mode_wire_witness :
  written (trace (exec (lcd8574_set_mode
                          (Z.lor LCD_MODE_DISPLAY_ON LCD_MODE_CURSOR_BLINK))
                       (boot 39 2 16)))
  = [0x0C; 0x08; 0xDC; 0xD8].
Proof.
  unfold exec.
  rewrite (set_mode_wire (Z.lor LCD_MODE_DISPLAY_ON LCD_MODE_CURSOR_BLINK)
                         (boot 39 2 16)); [reflexivity|].
  simpl. lia.
Defined.

(* ===================================================================== *)
(** ** The GPIO pin *)

Lemma write_to_file_trace fs filename text error t :
  exists l,
    snd (gpiopin_write_to_file fs filename text error t) = t ++ l
    /\ count_fs_close l = 0%nat.
Proof.
  unfold gpiopin_write_to_file. destruct (can_fopen fs filename);
    eexists; split; reflexivity.
Qed.

Lemma count_fs_close_app l1 l2 :
  count_fs_close (l1 ++ l2) = (count_fs_close l1 + count_fs_close l2)%nat.
Proof. unfold count_fs_close. now rewrite filter_app, length_app. Qed.

(** X21: [gpiopin_uninit] leaves [value_fd] at -1, so a second
    [gpiopin_uninit] in a row makes no [close]: a descriptor is closed at
    most once, whatever the file system answers. *)
Theorem gpiopin_uninit_closes_once (fs1 fs2 : Sysfs) (m : PinMachine) :
  value_fd (pin_self (gpiopin_uninit fs1 m)) = -1
  /\ pin (pin_self (gpiopin_uninit fs1 m)) = pin (pin_self m)
  /\ count_fs_close (pin_trace (gpiopin_uninit fs2 (gpiopin_uninit fs1 m)))
     = count_fs_close (pin_trace (gpiopin_uninit fs1 m))
  /\ (count_fs_close (pin_trace (gpiopin_uninit fs1 m))
      <= count_fs_close (pin_trace m) + 1)%nat.
Proof.
  assert (Hu : forall fs x,
             pin_self (gpiopin_uninit fs x) = mkGPIOPin (pin (pin_self x)) (-1)
             /\ exists l,
                  pin_trace (gpiopin_uninit fs x)
                  = (if 0 <=? value_fd (pin_self x)
                     then pin_trace x ++ [FsClose (value_fd (pin_self x))]
                     else pin_trace x) ++ l
                  /\ count_fs_close l = 0%nat).
  { intros fs x. unfold gpiopin_uninit.
    destruct (write_to_file_trace fs "/sys/class/gpio/unexport"
                (snprintf50 (fmt_d (pin (pin_self x)))) false
                (if 0 <=? value_fd (pin_self x)
                 then pin_trace x ++ [FsClose (value_fd (pin_self x))]
                 else pin_trace x)) as [l [E Hl]].
    destruct (gpiopin_write_to_file _ _ _ _ _) as [r t2].
    cbn [snd] in E. cbn [pin_self pin_trace]. split; [reflexivity|].
    exists l. split; assumption. }
  destruct (Hu fs1 m) as [Hs1 [l1 [Ht1 Hl1]]].
  destruct (Hu fs2 (gpiopin_uninit fs1 m)) as [_ [l2 [Ht2 Hl2]]].
  rewrite Hs1 in *. cbn [value_fd pin] in *.
  split; [reflexivity|]. split; [reflexivity|]. split.
  - rewrite Ht2. change (0 <=? -1) with false. cbn iota.
    rewrite count_fs_close_app. lia.
  - rewrite Ht1. destruct (0 <=? value_fd (pin_self m));
      rewrite !count_fs_close_app; cbn; lia.
Qed.

(** X22: [gpiopin_init] succeeds exactly when the export file can be
    written and the value file can be opened; whether the direction file
    could be written is not looked at.  When the export file could be
    written, [value_fd] is what [open] returned. *)
Theorem gpiopin_init_result (fs : Sysfs) (error : bool) (m : PinMachine) :
  fst (fst (gpiopin_init fs error m))
  = can_fopen fs "/sys/class/gpio/export"
    && (0 <=? open_ret fs (snprintf50 ("/sys/class/gpio/gpio"
                                       ++ fmt_d (pin (pin_self m))
                                       ++ "/value")))
  /\ (can_fopen fs "/sys/class/gpio/export" = true ->
      value_fd (pin_self (snd (gpiopin_init fs error m)))
      = open_ret fs (snprintf50 ("/sys/class/gpio/gpio"
                                 ++ fmt_d (pin (pin_self m)) ++ "/value")))
  /\ pin (pin_self (snd (gpiopin_init fs error m))) = pin (pin_self m).
Proof.
  destruct (can_fopen fs "/sys/class/gpio/export") eqn:He;
    unfold gpiopin_init, gpiopin_write_to_file; rewrite He.
  - destruct (can_fopen fs (snprintf50 ("/sys/class/gpio/gpio"
                                        ++ fmt_d (pin (pin_self m))
                                        ++ "/direction")));
      destruct (0 <=? open_ret fs _);
      cbn [andb fst snd pin_self pin value_fd]; repeat split.
  - cbn [andb fst snd pin_self pin value_fd]. repeat split. discriminate.
Qed.

(** X23: when the export file cannot be written, [gpiopin_init] makes
    that one [fopen] and nothing else, leaves the object as it was and
    returns [FALSE]; the message names the file and the error, and is
    stored only if the caller gave a place for it. *)
Theorem gpiopin_init_export_failure
  (fs : Sysfs) (error : bool) (m : PinMachine) :
  can_fopen fs "/sys/class/gpio/export" = false ->
  gpiopin_init fs error m
  = ((FALSE,
      if error
      then Some ("Can't open /sys/class/gpio/export for writing: "
                 ++ sysfs_strerror fs)%string
      else None),
     mkPinMachine (pin_self m)
                  (pin_trace m ++ [FsFopen "/sys/class/gpio/export" false])).
Proof.
  intros H. unfold gpiopin_init, gpiopin_write_to_file. rewrite H.
  reflexivity.
Qed.

Lemma gpiopin_init_export_failure_witness :
  gpiopin_init (mkSysfs (fun _ => false) (fun _ => 3) "Permission denied")
               true (mkPinMachine (gpiopin_create 17) [])
  = ((FALSE,
      Some "Can't open /sys/class/gpio/export for writing: Permission denied"
           %string),
     mkPinMachine (gpiopin_create 17)
                  [FsFopen "/sys/class/gpio/export" false]).
Proof.
  apply (gpiopin_init_export_failure
           (mkSysfs (fun _ => false) (fun _ => 3) "Permission denied")
           true (mkPinMachine (gpiopin_create 17) [])).
  reflexivity.
Defined.

(** X24: [gpiopin_set] needs a descriptor.  After a [gpiopin_init] that
    returned [TRUE] it writes the character '1' or '0' to [value_fd] and
    changes nothing else; on a pin just created, or after
    [gpiopin_uninit], its assertion fails. *)
Theorem gpiopin_set_needs_init
  (fs : Sysfs) (error : bool) (val : BOOL) (m : PinMachine) :
  (fst (fst (gpiopin_init fs error m)) = TRUE ->
   gpiopin_set val (snd (gpiopin_init fs error m))
   = Some (mkPinMachine
             (pin_self (snd (gpiopin_init fs error m)))
             (pin_trace (snd (gpiopin_init fs error m))
              ++ [FsWrite (value_fd (pin_self (snd (gpiopin_init fs error m))))
                          (if val then 49 else 48)])))
  /\ gpiopin_set val (gpiopin_uninit fs m) = None
  /\ gpiopin_set val (mkPinMachine (gpiopin_create (pin (pin_self m)))
                                   (pin_trace m)) = None.
Proof.
  split; [|split].
  - intros Hok.
    destruct (gpiopin_init_result fs error m) as [Hr [Hv _]].
    rewrite Hr in Hok. apply andb_prop in Hok. destruct Hok as [He Ho].
    specialize (Hv He). unfold gpiopin_set. rewrite Hv, Ho.
    destruct val; reflexivity.
  - destruct (gpiopin_uninit_closes_once fs fs m) as [Hv _].
    unfold gpiopin_set. rewrite Hv. reflexivity.
  - reflexivity.
Qed.

Lemma gpiopin_set_needs_init_witness :
  option_map pin_trace
    (gpiopin_set TRUE
       (snd (gpiopin_init (mkSysfs (fun _ => true) (fun _ => 4) "") false
                          (mkPinMachine (gpiopin_create 17) []))))
  = Some [FsFopen "/sys/class/gpio/export" true; FsFprintf "17"; FsFclose;
          FsFopen "/sys/class/gpio/gpio17/direction" true; FsFprintf "out";
          FsFclose;
          FsOpen "/sys/class/gpio/gpio17/value" O_WRONLY 4;
          FsWrite 4 49].
Proof.
  destruct (gpiopin_set_needs_init
              (mkSysfs (fun _ => true) (fun _ => 4) "") false TRUE
              (mkPinMachine (gpiopin_create 17) [])) as [H _].
  rewrite H; reflexivity.
Defined.

(* ===================================================================== *)
(** ** The clock of main.c *)

Lemma range_check (P : Z -> bool) (n : Z) :
  forallb P (map Z.of_nat (seq 0 (Z.to_nat n))) = true ->
  forall z, 0 <= z < n -> P z = true.
Proof.
  intros H z Hz. rewrite forallb_forall in H. apply H.
  rewrite <- (Z2Nat.id z) by lia. apply in_map, in_seq. lia.
Qed.

Lemma two_digits z : 0 <= z < 100 -> plain_text 2 (fmt_0d 2 z) = true.
Proof.
  apply (range_check (fun z => plain_text 2 (fmt_0d 2 z)) 100).
  vm_compute. reflexivity.
Qed.

Lemma four_digits z : 0 <= z < 10000 -> plain_text 4 (fmt_0d 4 z) = true.
Proof.
  apply (range_check (fun z => plain_text 4 (fmt_0d 4 z)) 10000).
  vm_compute. reflexivity.
Qed.

Lemma bytes_of_string_app a b :
  bytes_of_string (a ++ b) = bytes_of_string a ++ bytes_of_string b.
Proof.
  unfold bytes_of_string. induction a as [|c a IH]; [reflexivity|].
  cbn [append list_ascii_of_string map app]. now rewrite IH.
Qed.

Lemma bytes_of_string_length s :
  List.length (bytes_of_string s) = String.length s.
Proof.
  unfold bytes_of_string. induction s as [|c s IH]; [reflexivity|].
  cbn [list_ascii_of_string map List.length String.length]. now rewrite IH.
Qed.

Lemma plain_text_bytes w s :
  plain_text w s = true ->
  List.length (bytes_of_string s) = w /\ no_nul (bytes_of_string s).
Proof.
  unfold plain_text. intros H. apply andb_prop in H. destruct H as [Hl Hn].
  apply Nat.eqb_eq in Hl. split; [now rewrite bytes_of_string_length|].
  apply Forall_forall. intros c Hc. rewrite forallb_forall in Hn.
  specialize (Hn c Hc). apply negb_true_iff, Z.eqb_neq in Hn. exact Hn.
Qed.

Lemma time_text_bytes t :
  valid_tm t = true ->
  List.length (bytes_of_string (time_text t)) = 8%nat
  /\ no_nul (bytes_of_string (time_text t)).
Proof.
  unfold valid_tm. intros H.
  repeat (apply andb_prop in H; destruct H as [H ?]).
  repeat match goal with
         | Hb : (_ <=? _) = true |- _ => apply Z.leb_le in Hb
         | Hb : (_ <? _) = true |- _ => apply Z.ltb_lt in Hb
         end.
  destruct (plain_text_bytes 2 _ (two_digits (tm_hour t) ltac:(lia)))
    as [L1 N1].
  destruct (plain_text_bytes 2 _ (two_digits (tm_min t) ltac:(lia)))
    as [L2 N2].
  destruct (plain_text_bytes 2 _ (two_digits (tm_sec t) ltac:(lia)))
    as [L3 N3].
  unfold time_text. rewrite !bytes_of_string_app, !length_app, L1, L2, L3.
  split; [reflexivity|].
  unfold no_nul in *. rewrite !Forall_app.
  repeat split; try assumption; repeat constructor; discriminate.
Qed.

Lemma date_text_bytes t :
  valid_tm t = true ->
  List.length (bytes_of_string (date_text t)) = 10%nat
  /\ no_nul (bytes_of_string (date_text t)).
Proof.
  unfold valid_tm. intros H.
  repeat (apply andb_prop in H; destruct H as [H ?]).
  repeat match goal with
         | Hb : (_ <=? _) = true |- _ => apply Z.leb_le in Hb
         | Hb : (_ <? _) = true |- _ => apply Z.ltb_lt in Hb
         end.
  assert (Hy : to_int (tm_year t + 1900) = tm_year t + 1900)
    by (apply to_int_id; unfold is_int, INT_MIN, INT_MAX; lia).
  assert (Hm : to_int (tm_mon t + 1) = tm_mon t + 1)
    by (apply to_int_id; unfold is_int, INT_MIN, INT_MAX; lia).
  destruct (plain_text_bytes 4 _ (four_digits (tm_year t + 1900) ltac:(lia)))
    as [L1 N1].
  destruct (plain_text_bytes 2 _ (two_digits (tm_mon t + 1) ltac:(lia)))
    as [L2 N2].
  destruct (plain_text_bytes 2 _ (two_digits (tm_mday t) ltac:(lia)))
    as [L3 N3].
  unfold date_text. rewrite Hy, Hm.
  rewrite !bytes_of_string_app, !length_app, L1, L2, L3.
  split; [reflexivity|].
  unfold no_nul in *. rewrite !Forall_app.
  repeat split; try assumption; repeat constructor; discriminate.
Qed.

(** X25: for every time of day and every date up to the year 9999, on
    a display with at least two rows and eleven columns, one turn of the
    loop of [main] sends the address of row 0 and the eight characters of
    the time, the address of row 1 and the ten characters of the date,
    and then sleeps one second: 80 writes, nothing cut off, and the object
    unchanged. *)
Theorem main_refresh_wire (t : tm) (m : Machine) :
  valid_tm t = true ->
  1 < rows (self m) -> 10 < cols (self m) -> is_int (cols (self m)) ->
  main_refresh t m
  = (tt, emit (set_addr (fd (self m)) 0 0
               ++ chars (fd (self m)) (bytes_of_string (time_text t))
               ++ set_addr (fd (self m)) 1 0
               ++ chars (fd (self m)) (bytes_of_string (date_text t))
               ++ [EvUsleep 1000000]) m)
  /\ List.length (bytes_of_string (time_text t)) = 8%nat
  /\ List.length (bytes_of_string (date_text t)) = 10%nat
  /\ count_writes (trace (exec (main_refresh t) m))
     = (count_writes (trace m) + 80)%nat.
Proof.
  intros Hv Hr Hc Hk.
  destruct (time_text_bytes t Hv) as [Lt Nt].
  destruct (date_text_bytes t Hv) as [Ld Nd].
  assert (E : main_refresh t m
              = (tt, emit (set_addr (fd (self m)) 0 0
                           ++ chars (fd (self m))
                                (bytes_of_string (time_text t))
                           ++ set_addr (fd (self m)) 1 0
                           ++ chars (fd (self m))
                                (bytes_of_string (date_text t))
                           ++ [EvUsleep 1000000]) m)).
  { unfold main_refresh, bind.
    rewrite wrap_irrelevant_inside_row by (try assumption; lia).
    rewrite wrap_irrelevant_inside_row
      by (rewrite ?self_emit; try assumption; lia).
    unfold usleep, log. rewrite self_emit.
    unfold emit. cbn [self trace]. rewrite <- !app_assoc. reflexivity. }
  split; [exact E|]. split; [exact Lt|]. split; [exact Ld|].
  unfold exec. rewrite E. cbn [snd trace emit].
  rewrite !count_writes_app, !count_writes_chars, Lt, Ld.
  unfold set_addr. rewrite !count_writes_octet. cbn. lia.
Qed.

Lemma main_refresh_wire_witness :
  let t := mkTm 59 4 9 2 10 126 in
  time_text t = "09:04:59"%string /\ date_text t = "2026/11/02"%string
  /\ count_writes (trace (exec (main_refresh t) (boot I2C_ADDR ROWS COLS)))
     = 80%nat.
Proof.
  cbv zeta. split; [reflexivity|]. split; [reflexivity|].
  apply (main_refresh_wire (mkTm 59 4 9 2 10 126) (boot I2C_ADDR ROWS COLS));
    [reflexivity | unfold ROWS; simpl; lia | unfold COLS; simpl; lia
    | unfold is_int, INT_MIN, INT_MAX, COLS; simpl; lia].
Defined.

(** X26: when the initialisation fails, [main] writes nothing to the
    display: it makes the calls of the failed [lcd8574_init] only, and
    the line for [stderr] is the name of the program, the message of
    [lcd8574_init] and a newline.  When it succeeds, the display is
    cleared once more before the loop and nothing goes to [stderr]. *)
Theorem main_setup_outcome (argv0 : string) (e : Env) (m : Machine) :
  (env_open e < 0 \/ env_ioctl e < 0 ->
   count_writes (trace (exec (main_setup argv0 e) m))
   = count_writes (trace m)
   /\ exists msg,
        snd (eval (lcd8574_init e) m) = Some msg
        /\ eval (main_setup argv0 e) m
           = Some (argv0 ++ ": " ++ msg
                   ++ String (ascii_of_nat 10) EmptyString)%string)
  /\ (0 <= env_open e -> 0 <= env_ioctl e ->
      eval (main_setup argv0 e) m = None
      /\ count_writes (trace (exec (main_setup argv0 e) m))
         = (count_writes (trace m) + 25)%nat
      /\ ready (self (exec (main_setup argv0 e) m)) = TRUE).
Proof.
  split.
  - intros Hfail. unfold main_setup, exec, eval, bind.
    destruct (Z.leb_spec 0 (env_open e)) as [Ho|Ho].
    + assert (Hi : env_ioctl e < 0) by lia.
      rewrite init_run_bind_fails by assumption.
      cbn [fst snd FALSE ret trace].
      split; [rewrite count_writes_app; apply Nat.add_0_r|].
      eexists. split; reflexivity.
    + rewrite init_run_open_fails by assumption.
      cbn [fst snd FALSE ret trace].
      split; [rewrite count_writes_app; apply Nat.add_0_r|].
      eexists. split; reflexivity.
  - intros Ho Hi. unfold main_setup, exec, eval, bind.
    rewrite init_run_ok by assumption. cbn [fst snd TRUE].
    unfold lcd8574_clear. rewrite send_byte_run. cbn [fst snd ret].
    split; [reflexivity|]. split; [|reflexivity].
    cbn [trace emit]. rewrite !count_writes_app, !count_writes_strobe,
      !count_writes_octet. cbn. lia.
Qed.

Lemma main_setup_outcome_witness :
  eval (main_setup "lcd8574" (mkEnv (-1) 0 "No such file or directory"))
       (boot I2C_ADDR ROWS COLS)
  = Some ("lcd8574: Can't open I2C device: No such file or directory"
          ++ String (ascii_of_nat 10) EmptyString)%string.
Proof.
  destruct (main_setup_outcome "lcd8574"
              (mkEnv (-1) 0 "No such file or directory")
              (boot I2C_ADDR ROWS COLS)) as [H _].
  destruct H as [_ [msg [_ E]]]; [left; simpl; lia|].
  reflexivity.
Defined.

Lemma total_usleep_chars f s :
  total_usleep (chars f s) = 4000 * Z.of_nat (List.length s).
Proof.
  induction s as [|c s IH]; [reflexivity|].
  cbn [chars flat_map List.length]. fold (chars f s).
  rewrite total_usleep_app, total_usleep_octet, IH. lia.
Qed.

(** X27: the turns of the loop add up: after any number of turns with
    valid times the object is as it was, 80 writes were made per turn and
    1.08 seconds of delay were asked for per turn (the second of
    [usleep (1000000)] and a millisecond for each write). *)
Theorem main_loop_measures (ts : list tm) (m : Machine) :
  forallb valid_tm ts = true ->
  1 < rows (self m) -> 10 < cols (self m) -> is_int (cols (self m)) ->
  exists l : list Event,
    main_loop ts m = (tt, emit l m)
    /\ count_writes l = (80 * List.length ts)%nat
    /\ total_usleep l = 1080000 * Z.of_nat (List.length ts).
Proof.
  revert m. induction ts as [|t ts IH]; intros m Hv Hr Hc Hk.
  - exists []. rewrite emit_nil. repeat split.
  - cbn [forallb] in Hv. apply andb_prop in Hv. destruct Hv as [Ht Hts].
    destruct (main_refresh_wire t m Ht Hr Hc Hk) as [E [Lt [Ld _]]].
    cbn [main_loop]. unfold bind. rewrite E.
    destruct (IH (emit (set_addr (fd (self m)) 0 0
                        ++ chars (fd (self m)) (bytes_of_string (time_text t))
                        ++ set_addr (fd (self m)) 1 0
                        ++ chars (fd (self m)) (bytes_of_string (date_text t))
                        ++ [EvUsleep 1000000]) m) Hts Hr Hc Hk)
      as [l [El [Hw Hu]]].
    eexists. rewrite El, emit_emit. split; [reflexivity|].
    cbn [List.length]. rewrite Nat2Z.inj_succ.
    rewrite !count_writes_app, !total_usleep_app,
      !count_writes_chars, !total_usleep_chars, Lt, Ld, Hw, Hu.
    unfold set_addr. rewrite !count_writes_octet, !total_usleep_octet.
    split; [cbn; lia|].
    change (total_usleep [EvUsleep 1000000]) with 1000000. lia.
Qed.

Lemma main_loop_measures_witness :
  exists l : list Event,
    main_loop [mkTm 59 4 9 2 10 126; mkTm 0 5 9 2 10 126]
              (boot I2C_ADDR ROWS COLS)
    = (tt, emit l (boot I2C_ADDR ROWS COLS))
    /\ count_writes l = 160%nat /\ total_usleep l = 2160000.
Proof.
  destruct (main_loop_measures
              [mkTm 59 4 9 2 10 126; mkTm 0 5 9 2 10 126]
              (boot I2C_ADDR ROWS COLS))
    as [l [E [Hw Hu]]];
    [reflexivity | unfold ROWS; simpl; lia | unfold COLS; simpl; lia
    | unfold is_int, INT_MIN, INT_MAX, COLS; simpl; lia |].
  exists l. split; [exact E|]. split; [exact Hw | exact Hu].
Defined.

Lemma gpiopin_init_result_witness :
  let fs := mkSysfs (fun f => negb (String.eqb f
                                      "/sys/class/gpio/gpio17/direction"))
                    (fun _ => 4) "" in
  fst (fst (gpiopin_init fs false (mkPinMachine (gpiopin_create 17) [])))
  = TRUE
  /\ value_fd (pin_self (snd (gpiopin_init fs false
                                (mkPinMachine (gpiopin_create 17) [])))) = 4.
Proof.
  cbv zeta.
  destruct (gpiopin_init_result
              (mkSysfs (fun f => negb (String.eqb f
                                         "/sys/class/gpio/gpio17/direction"))
                       (fun _ => 4) "")
              false (mkPinMachine (gpiopin_create 17) [])) as [Hr [Hv _]].
  split; [rewrite Hr; reflexivity | rewrite Hv; reflexivity].
Defined.
